(** * guess-build-system: build system detection by file name patterns

    A shallow embedding of [guess-build-system.py]: the pattern table of
    [BuildSystemDetector.__init__], the two-level scan and the
    first-pattern-wins classification of [detect_build_system], the
    manifest reader [detect_package_type], and the two output modes of
    [main].

    Conventions of the model.
    - A file name is a [string]; its characters stand for code points
      below 256.  On such names [re.IGNORECASE] folds exactly the letters
      A-Z onto a-z, which is what [lower] does.  Names with other
      characters are outside the model: [re.IGNORECASE] also lets [k]
      match the Kelvin sign, [s] the long s and [i] the dotted and the
      dotless i, and a name that the standard output cannot encode makes
      [print] fail.  Statements that depend on this say so.
    - A [pathlib.Path] is the list of its parts; [Path('.')] has none.
      The parts are names of directory entries: [..], absolute paths and
      parts that no directory can hold are outside the model.  The only
      directory that [main] scans is [Path('.')].
    - The file system is a finite tree, a snapshot that only changes when
      a special file is read; links are taken as already followed.  A run
      that never ends (reading a pipe that nobody writes to) has no value.
    - An exception that leaves a function is a [Raise] result.
    - [print] is taken to succeed. *)

From Stdlib Require Import List String Ascii Bool Arith ZArith NArith Lia.
From Stdlib Require Import Permutation.
Import ListNotations.

Set Implicit Arguments.
Set Warnings "-register-all".
Local Open Scope string_scope.
Local Open Scope list_scope.

(* ================================================================= *)
(** ** Exceptions and results *)

Inductive exn : Type :=
| FileNotFoundError
| NotADirectoryError
| PermissionError
| IsADirectoryError
| OSError
| UnicodeDecodeError
| JSONDecodeError
| ValueError
| RecursionError
| AttributeError.

Inductive result (A : Type) : Type :=
| Ok (a : A)
| Raise (e : exn).

Arguments Ok {A} a.
Arguments Raise {A} e.

Definition bind {A B : Type} (r : result A) (f : A -> result B) : result B :=
  match r with
  | Ok a => f a
  | Raise e => Raise e
  end.

Notation "x <- r ;; k" := (bind r (fun x => k))
  (at level 61, r at next level, right associativity).

Definition raises {A : Type} (r : result A) : bool :=
  match r with Ok _ => false | Raise _ => true end.

(* ================================================================= *)
(** ** Regular expressions as [re.match] runs them *)

Module Regex.

(** The constructs that occur in the pattern table. *)
Inductive regex : Type :=
| Bol                              (* ^ *)
| Eol                              (* $ *)
| Chr (c : ascii)                  (* a literal, also an escaped one: \. *)
| Dot                              (* . *)
| Class (cs : list ascii)          (* [Mm] *)
| Seq (r1 r2 : regex)              (* r1 r2 *)
| Alt (r1 r2 : regex)              (* r1|r2 *)
| Opt (r : regex)                  (* (r)? *)
| Star (r : regex).                (* r* *)

Definition newline : ascii := ascii_of_nat 10.

(** Case folding of [re.IGNORECASE] on code points below 256. *)
Definition lower (c : ascii) : ascii :=
  let n := nat_of_ascii c in
  if (Nat.leb 65 n && Nat.leb n 90)%bool then ascii_of_nat (n + 32) else c.

Definition eq_ci (c a : ascii) : bool := Ascii.eqb (lower c) (lower a).

(** [$] without [re.MULTILINE]: the end of the string, or just before a
    newline that is the last character of the string. *)
Definition at_end (s : string) : bool :=
  match s with
  | EmptyString => true
  | String a EmptyString => Ascii.eqb a newline
  | _ => false
  end.

(** Backtracking matcher in continuation-passing style.  [pos] is the
    number of characters consumed so far, [s] what is left of the subject,
    [k] what remains to be matched after [r].  A starred expression may
    iterate only while it consumes input, as the engine's guard against
    empty loops has it. *)
Fixpoint run (r : regex) (pos : nat) (s : string)
         (k : nat -> string -> bool) {struct r} : bool :=
  match r with
  | Bol => Nat.eqb pos 0 && k pos s
  | Eol => at_end s && k pos s
  | Chr c =>
      match s with
      | String a s' => eq_ci c a && k (S pos) s'
      | EmptyString => false
      end
  | Dot =>
      match s with
      | String a s' => negb (Ascii.eqb a newline) && k (S pos) s'
      | EmptyString => false
      end
  | Class cs =>
      match s with
      | String a s' => existsb (fun c => eq_ci c a) cs && k (S pos) s'
      | EmptyString => false
      end
  | Seq r1 r2 => run r1 pos s (fun pos' s' => run r2 pos' s' k)
  | Alt r1 r2 => run r1 pos s k || run r2 pos s k
  | Opt r1 => run r1 pos s k || k pos s
  | Star r1 =>
      (fix loop (fuel : nat) (pos : nat) (s : string) {struct fuel} : bool :=
         match fuel with
         | O => k pos s
         | S fuel' =>
             run r1 pos s
                 (fun pos' s' =>
                    Nat.ltb (String.length s') (String.length s) && loop fuel' pos' s')
             || k pos s
         end) (String.length s) pos s
  end.

(** [re.match(pattern, s, re.IGNORECASE)]: a match that starts at the
    beginning of [s] and may end anywhere. *)
Definition re_match (r : regex) (s : string) : bool :=
  run r 0 s (fun _ _ => true).

(** [re.fullmatch(pattern, s, re.IGNORECASE)]: a match that spans the whole
    of [s].  The code never calls it; it is what "the name as a whole
    matches the pattern" means. *)
Definition re_fullmatch (r : regex) (s : string) : bool :=
  run r 0 s (fun _ s' => match s' with EmptyString => true | _ => false end).

(** *** Writing patterns *)

Fixpoint lit (s : string) : regex :=
  match s with
  | EmptyString => Opt Bol          (* never used: literals are not empty *)
  | String a EmptyString => Chr a
  | String a s' => Seq (Chr a) (lit s')
  end.

Fixpoint seq (rs : list regex) : regex :=
  match rs with
  | [] => Opt Bol
  | [r] => r
  | r :: rs' => Seq r (seq rs')
  end.

Fixpoint alt (rs : list regex) : regex :=
  match rs with
  | [] => Class []
  | [r] => r
  | r :: rs' => Alt r (alt rs')
  end.

End Regex.

(* ================================================================= *)
(** ** JSON values, as [json.load] hands them to the program *)

(** A decoded object is a Python [dict]: keys in the order of the document,
    each key once.  [JFloat] keeps the literal of a number that is not an
    integer; the program never computes with it. *)
Inductive json : Type :=
| JNull
| JBool (b : bool)
| JInt (z : Z)
| JFloat (literal : string)
| JStr (s : string)
| JArr (items : list json)
| JObj (members : list (string * json)).

Fixpoint assoc {A : Type} (k : string) (m : list (string * A)) : option A :=
  match m with
  | [] => None
  | (k', v) :: m' => if String.eqb k k' then Some v else assoc k m'
  end.

(* ================================================================= *)
(** ** The file system snapshot *)

Module Fs.

(** What [open(p, 'r')] and [json.load] make of the bytes of a file. *)
Inductive contents : Type :=
| Undecodable    (* not text in the encoding of [open]: UnicodeDecodeError *)
| Malformed      (* text that is not a JSON document: JSONDecodeError *)
| Oversized      (* JSON with an integer of more digits than [int] takes:
                    ValueError *)
| TooDeep        (* JSON nested deeper than the decoder recurses:
                    RecursionError *)
| Document (v : json).

(** A refusal of the operating system that Python passes on. *)
Inductive failure : Type :=
| EACCES         (* permission denied *)
| ENAMETOOLONG   (* a name of a link's target is too long *)
| ENXIO.         (* no such device or address: a socket that is opened *)

(** The exception that a refusal becomes. *)
Definition raised (why : failure) : exn :=
  match why with
  | EACCES => PermissionError
  | ENAMETOOLONG | ENXIO => OSError
  end.

(** What opening a special file and reading it to its end yields. *)
Inductive opening : Type :=
| Refused (why : failure)
| Delivers (c : contents).

(** An entry once links are followed.
    - [Special opened reopened] is a pipe, device or socket: [opened] is
      what the first opening yields and [reopened] what every later one
      does (a pipe gives its data once).
    - [Dangling] is a link that leads nowhere: [stat] fails with an
      error that pathlib ignores, so that [is_file], [is_dir] and
      [exists] are false.
    - [Barred why] is an entry on which [stat] fails with an error that
      pathlib passes on: an entry of a directory that may be listed but
      not searched, or a link into such a directory, or a link whose
      target has an over-long name.
    A directory lists its entries in the order in which the operating
    system enumerates them. *)
Inductive node : Type :=
| File (readable : bool) (c : contents)
| Dir (listable : bool) (entries : list (string * node))
| Special (opened reopened : opening)
| Dangling
| Barred (why : failure).

(** [pathlib.Path]: the parts of a relative path. *)
Definition path : Type := list string.

(** [Path.name] *)
Definition name (p : path) : string := last p "".

(** [str(path)] *)
Definition path_str (p : path) : string :=
  match p with
  | [] => "."
  | _ => String.concat "/" p
  end.

(** [Path.is_file()]: [S_ISREG] of [stat]; a [stat] that fails with
    [ENOENT], [ENOTDIR] or [ELOOP] gives [False], any other failure is
    passed on. *)
Definition is_file (n : node) : result bool :=
  match n with
  | File _ _ => Ok true
  | Barred why => Raise (raised why)
  | _ => Ok false
  end.

(** [Path.is_dir()] *)
Definition is_dir (n : node) : result bool :=
  match n with
  | Dir _ _ => Ok true
  | Barred why => Raise (raised why)
  | _ => Ok false
  end.

(** What a path, taken from the working directory [cwd], leads to, or
    the error of the operating system on the way. *)
Fixpoint resolve (cwd : node) (p : path) : result node :=
  match p with
  | [] => Ok cwd
  | part :: p' =>
      match cwd with
      | Dir _ entries =>
          match assoc part entries with
          | Some n => resolve n p'
          | None => Raise FileNotFoundError
          end
      | File _ _ | Special _ _ => Raise NotADirectoryError
      | Dangling => Raise FileNotFoundError
      | Barred why => Raise (raised why)
      end
  end.

(** [Path.exists()] *)
Definition exists_ (cwd : node) (p : path) : result bool :=
  match resolve cwd p with
  | Ok Dangling => Ok false
  | Ok (Barred why) => Raise (raised why)
  | Ok _ => Ok true
  | Raise FileNotFoundError | Raise NotADirectoryError => Ok false
  | Raise e => Raise e
  end.

(** [p.iterdir()], where [p] leads to [n]: the children as paths, each
    with the entry it leads to. *)
Definition iterdir (p : path) (n : node) : result (list (path * node)) :=
  match n with
  | Dir true entries => Ok (map (fun e => (p ++ [fst e], snd e)) entries)
  | Dir false _ => Raise PermissionError
  | File _ _ | Special _ _ => Raise NotADirectoryError
  | Dangling => Raise FileNotFoundError
  | Barred why => Raise (raised why)
  end.

(** [json.load] on the text of an opened file. *)
Definition load (c : contents) : result json :=
  match c with
  | Undecodable => Raise UnicodeDecodeError
  | Malformed => Raise JSONDecodeError
  | Oversized => Raise ValueError
  | TooDeep => Raise RecursionError
  | Document v => Ok v
  end.

(** [json.load(open(p, 'r'))], where [p] leads to [n]. *)
Definition open_load (n : node) : result json :=
  match n with
  | File true c => load c
  | File false _ => Raise PermissionError
  | Dir _ _ => Raise IsADirectoryError
  | Special (Delivers c) _ => load c
  | Special (Refused why) _ => Raise (raised why)
  | Dangling => Raise FileNotFoundError
  | Barred why => Raise (raised why)
  end.

(** An entry after it has been opened and read once. *)
Definition read_once (n : node) : node :=
  match n with
  | Special _ reopened => Special reopened reopened
  | _ => n
  end.

(** The working directory after its [package.json] has been opened and
    read once. *)
Definition manifest_read (cwd : node) : node :=
  match cwd with
  | Dir listable entries =>
      Dir listable
          (map (fun e => if String.eqb (fst e) "package.json"
                         then (fst e, read_once (snd e)) else e)
               entries)
  | _ => cwd
  end.

End Fs.

(* ================================================================= *)
(** ** class BuildSystemDetector *)

Module Detector.
Import Regex Fs.

(** [^ ... $] *)
Definition anchored (body : list regex) : regex :=
  Seq Bol (Seq (seq body) Eol).

(** [self.build_systems]; a [dict] literal keeps the order in which it is
    written. *)
Definition build_systems : list (string * list regex) :=
  [ ("Maven", [anchored [lit "pom.xml"]]);
    ("Gradle", [anchored [lit "build.gradle"; Opt (lit ".kts")];
                anchored [lit "settings.gradle"];
                anchored [lit "gradlew"]]);
    ("npm", [anchored [lit "package"; Opt (lit "-lock"); lit ".json"];
             anchored [lit "npm-shrinkwrap.json"]]);
    ("Yarn", [anchored [lit "yarn.lock"]]);
    ("Python/pip", [anchored [lit "requirements"; Star Dot; lit ".txt"];
                    anchored [lit "setup.py"];
                    anchored [lit "pyproject.toml"]]);
    ("Poetry", [anchored [lit "poetry.lock"]]);
    ("CMake", [anchored [lit "CMakeLists.txt"]]);
    ("Make", [anchored [Class ["M"%char; "m"%char]; lit "akefile"]]);
    ("Cargo (Rust)", [anchored [lit "Cargo."; alt [lit "toml"; lit "lock"]]]);
    ("Composer (PHP)",
      [anchored [lit "composer."; alt [lit "json"; lit "lock"]]]);
    ("Bazel", [anchored [lit "WORKSPACE"];
               anchored [lit "BUILD"; Opt (lit ".bazel")]]);
    ("Ant", [anchored [lit "build.xml"]]);
    ("sbt (Scala)", [anchored [lit "build.sbt"]]);
    ("Go Modules", [anchored [lit "go."; alt [lit "mod"; lit "sum"]]]);
    ("Lazarus",
      [anchored [Star Dot; lit "."; alt [lit "lpi"; lit "lpr"; lit "lpk"]]]);
    ("SCons", [anchored [lit "SConstruct"]; anchored [lit "SConscript"]]) ].

(** One element of [detected_systems]. *)
Record detected : Type := Detected {
  system : string;
  found_files : list path
}.

(** The generator [f for f in listing if f.is_file()], run to its end. *)
Fixpoint files_of (listing : list (path * node)) : result (list path) :=
  match listing with
  | [] => Ok []
  | (f, n) :: rest =>
      keep <- is_file n ;;
      files <- files_of rest ;;
      Ok (if keep then f :: files else files)
  end.

(** The second loop of the scan: every entry of the directory that is a
    directory is listed, and its regular files are appended. *)
Fixpoint extend_subdirs (entries : list (path * node)) (all_files : list path)
  : result (list path) :=
  match entries with
  | [] => Ok all_files
  | (subdir, n) :: rest =>
      dir <- is_dir n ;;
      if dir then
        inner <- iterdir subdir n ;;
        files <- files_of inner ;;
        extend_subdirs rest (all_files ++ files)
      else extend_subdirs rest all_files
  end.

(** The list [all_files] of [detect_build_system]. *)
Definition collect_files (directory : path) (cwd : node) : result (list path) :=
  dir_node <- resolve cwd directory ;;
  top <- iterdir directory dir_node ;;
  all_files <- files_of top ;;
  again <- iterdir directory dir_node ;;
  extend_subdirs again all_files.

(** The comprehension [matches]. *)
Definition matches_of (pattern : regex) (all_files : list path) : list path :=
  filter (fun file => re_match pattern (name file)) all_files.

(** The inner loop with its [break]. *)
Fixpoint first_match (patterns : list regex) (all_files : list path)
  : option (list path) :=
  match patterns with
  | [] => None
  | pattern :: rest =>
      match matches_of pattern all_files with
      | [] => first_match rest all_files
      | matches => Some matches
      end
  end.

(** The outer loop over [self.build_systems.items()]. *)
Fixpoint classify (table : list (string * list regex)) (all_files : list path)
  : list detected :=
  match table with
  | [] => []
  | (sys, patterns) :: rest =>
      match first_match patterns all_files with
      | Some matches =>
          {| system := sys; found_files := matches |} :: classify rest all_files
      | None => classify rest all_files
      end
  end.

Definition detect_build_system (directory : path) (cwd : node)
  : result (list detected) :=
  all_files <- collect_files directory cwd ;;
  Ok (classify build_systems all_files).

(** [dict.get] on a decoded value; only a [dict] has the method. *)
Definition get (data : json) (key : string) (default : json) : result json :=
  match data with
  | JObj members =>
      Ok (match assoc key members with Some v => v | None => default end)
  | _ => Raise AttributeError
  end.

(** [list(v.keys())] *)
Definition keys (v : json) : result (list string) :=
  match v with
  | JObj members => Ok (map fst members)
  | _ => Raise AttributeError
  end.

(** [try: body except json.JSONDecodeError: pass] *)
Definition except_JSONDecodeError {A : Type} (body : result A) (otherwise : A)
  : result A :=
  match body with
  | Raise JSONDecodeError => Ok otherwise
  | r => r
  end.

(** [package_info]: a [dict] from field name to value. *)
Definition package_info : Type := list (string * json).

Definition detect_package_type (directory : path) (cwd : node)
  : result package_info :=
  let package_json_path := directory ++ ["package.json"] in
  present <- exists_ cwd package_json_path ;;
  if present then
    except_JSONDecodeError
      (n <- resolve cwd package_json_path ;;
       data <- open_load n ;;
       nm <- get data "name" (JStr "Unknown") ;;
       version <- get data "version" (JStr "Unknown") ;;
       deps <- get data "dependencies" (JObj []) ;;
       ks <- keys deps ;;
       Ok [("name", nm); ("version", version);
           ("dependencies", JArr (map JStr ks))])
      []
  else Ok [].

End Detector.

(* ================================================================= *)
(** ** main *)

Module Cli.
Import Regex Fs Detector.

(** An f-string: literal text and interpolated values.  An interpolated
    [str] stands for itself; how Python renders any other value is left
    to Python. *)
Inductive piece : Type :=
| Lit (text : string)
| Val (v : json).

(** One call of [print]. *)
Inductive printed : Type :=
| Dumps (doc : json) (indent : option nat)    (* print(json.dumps(doc, indent)) *)
| Line (pieces : list piece).

(** [isinstance(value, list)] *)
Definition is_list (v : json) : bool :=
  match v with JArr _ => true | _ => false end.

(** The body of the loop over [package_info.items()]. *)
Definition print_item (key : string) (value : json) : list printed :=
  match value with
  | JArr items =>
      [Line [Lit (String Regex.newline ""); Val (JStr key); Lit ":"]]
      ++ map (fun item => Line [Lit "  - "; Val item]) (firstn 5 items)
      ++ (if Nat.ltb 5 (List.length items)
          then [Line [Lit "  ... and ";
                      Val (JInt (Z.of_nat (List.length items) - 5));
                      Lit " more"]]
          else [])
  | _ => [Line [Val (JStr key); Lit ": "; Val value]]
  end.

Definition print_package_info (info : package_info) : list printed :=
  match info with
  | [] => []
  | _ =>
      Line [Lit (String Regex.newline "Package information:")]
      :: flat_map (fun kv => print_item (fst kv) (snd kv)) info
  end.

Definition print_system (d : detected) : list printed :=
  [Line [Lit (String Regex.newline "🔨 "); Val (JStr (system d))];
   Line [Lit "  Found files:"]]
  ++ map (fun file => Line [Lit "   - "; Val (JStr (path_str file))])
         (found_files d).

(** The [result] dictionary of the JSON mode. *)
Definition json_result (found : list detected) (info : package_info) : json :=
  JObj [("systems",
         JArr (map (fun d =>
                      JObj [("name", JStr (system d));
                            ("files",
                             JArr (map (fun f => JStr (path_str f))
                                       (found_files d)))])
                   found));
        ("package_info", JObj info)].

(** [main], with the [--json] flag as [as_json] and the working directory
    as [cwd].  The value is what was printed, in order; every [print] is
    taken to succeed.  The text mode calls [detect_package_type] a second
    time, on the file system as the first call has left it. *)
Definition main (as_json : bool) (cwd : node) : result (list printed) :=
  found <- detect_build_system [] cwd ;;
  match found with
  | [] =>
      if as_json
      then Ok [Dumps (JObj [("systems", JArr []); ("package_info", JNull)]) None]
      else Ok [Line [Lit "No known build system detected."]]
  | _ =>
      info <- detect_package_type [] cwd ;;
      if as_json
      then Ok [Dumps (json_result found info) (Some 2)]
      else
        let report :=
          Line [Lit "Detected build systems:"] :: flat_map print_system found in
        info' <- detect_package_type [] (manifest_read cwd) ;;
        Ok (report ++ print_package_info info')
  end.

(** The exit status of the process: an exception that leaves [main] ends
    it with status 1. *)
Definition exit_status {A : Type} (r : result A) : Z :=
  match r with Ok _ => 0%Z | Raise _ => 1%Z end.

End Cli.

(* ================================================================= *)
(** ** Auxiliary definitions for the statements *)

Module Aux.
Import Regex Fs Detector Cli.

(** A regular file. *)
Definition regular (n : node) : bool :=
  match n with File _ _ => true | _ => false end.

(** An entry that cannot be examined. *)
Definition barred (n : node) : bool :=
  match n with Barred _ => true | _ => false end.

(** The regular files of a listing. *)
Definition regular_files (listing : list (path * node)) : list path :=
  map fst (filter (fun f => regular (snd f)) listing).

(** The children of the directory at [p], as [iterdir] yields them. *)
Definition children (p : path) (entries : list (string * node))
  : list (path * node) :=
  map (fun e => (p ++ [fst e], snd e)) entries.

(** What the second loop appends for one entry of the directory. *)
Definition files_below (entry : path * node) : list path :=
  match snd entry with
  | Dir true entries => regular_files (children (fst entry) entries)
  | _ => []
  end.

(** An entry of the scanned directory at which the scan stops: it cannot
    be examined, or it is a directory that may not be listed, or a
    directory with an entry that cannot be examined. *)
Definition unscannable (n : node) : bool :=
  match n with
  | Barred _ => true
  | Dir false _ => true
  | Dir true entries => existsb (fun e => barred (snd e)) entries
  | _ => false
  end.

(** Some pattern of the list matches some collected file. *)
Definition detects (patterns : list regex) (all_files : list path) : bool :=
  match first_match patterns all_files with Some _ => true | None => false end.


(** *** The language of a pattern *)

(** No [^] and no [$] inside. *)
Fixpoint anchor_free (r : regex) : bool :=
  match r with
  | Bol | Eol => false
  | Chr _ | Dot | Class _ => true
  | Seq r1 r2 | Alt r1 r2 => anchor_free r1 && anchor_free r2
  | Opt r1 | Star r1 => anchor_free r1
  end.

(** [^ body $] with nothing anchored inside [body]. *)
Definition is_anchored (p : regex) : bool :=
  match p with
  | Seq Bol (Seq body Eol) => anchor_free body
  | _ => false
  end.

(** The strings that a pattern without anchors denotes, read as a regular
    expression over characters compared without regard to case; [.] stands
    for any character but the newline. *)
Inductive lang : regex -> string -> Prop :=
| lang_chr (c a : ascii) :
    eq_ci c a = true -> lang (Chr c) (String a "")
| lang_dot (a : ascii) :
    a <> newline -> lang Dot (String a "")
| lang_class (cs : list ascii) (c a : ascii) :
    In c cs -> eq_ci c a = true -> lang (Class cs) (String a "")
| lang_seq (r1 r2 : regex) (s1 s2 : string) :
    lang r1 s1 -> lang r2 s2 -> lang (Seq r1 r2) (s1 ++ s2)
| lang_alt_l (r1 r2 : regex) (s : string) :
    lang r1 s -> lang (Alt r1 r2) s
| lang_alt_r (r1 r2 : regex) (s : string) :
    lang r2 s -> lang (Alt r1 r2) s
| lang_opt_none (r : regex) : lang (Opt r) ""
| lang_opt_some (r : regex) (s : string) :
    lang r s -> lang (Opt r) s
| lang_star_nil (r : regex) : lang (Star r) ""
| lang_star_app (r : regex) (s1 s2 : string) :
    lang r s1 -> lang (Star r) s2 -> lang (Star r) (s1 ++ s2).

(** A name in lower case. *)
Fixpoint lower_string (s : string) : string :=
  match s with
  | EmptyString => EmptyString
  | String a s' => String (lower a) (lower_string s')
  end.

(** No newline in the name. *)
Fixpoint no_newline (s : string) : bool :=
  match s with
  | EmptyString => true
  | String a s' => negb (Ascii.eqb a newline) && no_newline s'
  end.

(** How a name that [^ ... $] accepts may end after the part that the
    body of the pattern accepts: with nothing, or with one newline. *)
Definition line_end : list string := [""; String newline ""].

(** [P] describes, on names in lower case, the strings that the pattern
    [r] denotes. *)
Definition accepts (r : regex) (P : string -> Prop) : Prop :=
  forall s, lang r s <-> P (lower_string s).

(** [isinstance(v, dict)]: the decoded values that have [get] and
    [keys]. *)
Definition is_object (v : json) : bool :=
  match v with JObj _ => true | _ => false end.

(** The value that [data.get(key, default)] yields on the members of an
    object. *)
Definition member (key : string) (members : list (string * json))
           (default : json) : json :=
  match assoc key members with Some v => v | None => default end.

(** What the body of [detect_package_type] makes of what [json.load]
    yields or raises. *)
Definition manifest_info (loaded : result json) : result package_info :=
  match loaded with
  | Ok (JObj members) =>
      match member "dependencies" members (JObj []) with
      | JObj deps =>
          Ok [("name", member "name" members (JStr "Unknown"));
              ("version", member "version" members (JStr "Unknown"));
              ("dependencies", JArr (map JStr (map fst deps)))]
      | _ => Raise AttributeError
      end
  | Ok _ => Raise AttributeError
  | Raise JSONDecodeError => Ok []
  | Raise e => Raise e
  end.

(** [JSONDecodeError] leaves the function. *)
Definition raises_JSONDecodeError {A : Type} (r : result A) : bool :=
  match r with Raise JSONDecodeError => true | _ => false end.

(** Only characters of ASCII. *)
Fixpoint ascii_only (s : string) : bool :=
  match s with
  | EmptyString => true
  | String a s' => Nat.ltb (nat_of_ascii a) 128 && ascii_only s'
  end.

(** What the claim that reported paths are relative to the scanned
    directory says of a reported path: read from the scanned directory,
    it leads to a regular file. *)
Definition relative_to_scanned (directory : path) (cwd : node) (file : path)
  : Prop :=
  exists r c, resolve cwd (directory ++ file) = Ok (File r c).

End Aux.

(* ================================================================= *)
(** ** Example inputs *)

Module Examples.
Import Regex Fs Detector Cli.

Definition nl : string := String newline "".

Definition plain : node := File true Malformed.

(** A directory with the two spellings of a makefile. *)
Definition two_makefiles : node :=
  Dir true [("Makefile", plain); ("makefile", plain)].

(** A directory whose only entry is [Cargo.toml]. *)
Definition cargo_only : node := Dir true [("Cargo.toml", plain)].

(** The manifest of the specification's example. *)
Definition six_deps : list (string * json) :=
  [("a", JStr "1"); ("b", JStr "2"); ("c", JStr "3");
   ("d", JStr "4"); ("e", JStr "5"); ("f", JStr "6")].

Definition six_members : list (string * json) :=
  [("name", JStr "foo"); ("version", JStr "1.0.0");
   ("dependencies", JObj six_deps)].

Definition six_dependencies : json := JObj six_members.

Definition npm_project : node :=
  Dir true [("package.json", File true (Document six_dependencies))].

(** A manifest that is a JSON document, but an array. *)
Definition array_manifest : node :=
  Dir true [("package.json", File true (Document (JArr [])))].

(** A manifest whose text is not JSON, next to a Go module file. *)
Definition broken_manifest : node :=
  Dir true [("package.json", plain); ("go.mod", plain)].

(** A regular file whose name is [pom.xml] followed by a newline. *)
Definition newline_name : node :=
  Dir true [(String.append "pom.xml" nl, plain)].

(** The same two files, enumerated in either order. *)
Definition yarn_then_maven : node :=
  Dir true [("yarn.lock", plain); ("pom.xml", plain)].

Definition maven_then_yarn : node :=
  Dir true [("pom.xml", plain); ("yarn.lock", plain)].

(** A manifest whose bytes are not text, next to a Go module file. *)
Definition undecodable_manifest : node :=
  Dir true [("package.json", File true Undecodable); ("go.mod", plain)].

(** A manifest that is a pipe which delivers the specification's example
    once, next to a Go module file. *)
Definition piped_manifest : node :=
  Dir true [("package.json",
             Special (Delivers (Document six_dependencies))
                     (Delivers Malformed));
            ("go.mod", plain)].

(** A project that lies in the directory [proj] of the working
    directory. *)
Definition project_below : node :=
  Dir true [("proj", Dir true [("sub", Dir true [("pom.xml", plain)])])].

(** A project with a build file in a subdirectory and one two levels down. *)
Definition nested : node :=
  Dir true [("sub", Dir true [("pom.xml", plain);
                              ("deep", Dir true [("build.xml", plain)])]);
            ("README", plain)].

End Examples.

(* ================================================================= *)
(** ** Results *)

Import Regex Fs Detector Cli Aux.

Unset Implicit Arguments.

(** *** The result monad *)

Lemma bind_ok {A B : Type} (r : result A) (f : A -> result B) (b : B) :
  bind r f = Ok b -> exists a, r = Ok a /\ f a = Ok b.
Proof.
  destruct r as [a|e]; simpl; intros H; [eauto | discriminate].
Qed.

Lemma bind_raise {A B : Type} (r : result A) (f : A -> result B) (e : exn) :
  bind r f = Raise e -> r = Raise e \/ exists a, r = Ok a /\ f a = Raise e.
Proof.
  destruct r as [a|e']; simpl; intros H.
  - right. eauto.
  - left. injection H as ->. reflexivity.
Qed.

Lemma ok_inj {A : Type} (a b : A) : Ok a = Ok b -> a = b.
Proof. intros [= H]. exact H. Qed.

(** *** The inner loop: the first pattern with a match wins *)

Lemma first_match_none (patterns : list regex) (all_files : list path) :
  first_match patterns all_files = None <->
  forall p, In p patterns -> matches_of p all_files = [].
Proof.
  induction patterns as [|q rest IH]; simpl.
  - split; [intros _ p [] | reflexivity].
  - destruct (matches_of q all_files) as [|f fs] eqn:E.
    + rewrite IH. split.
      * intros H p [<-|Hp]; [exact E | exact (H p Hp)].
      * intros H p Hp. apply H. right. exact Hp.
    + split; [discriminate|].
      intros H. specialize (H q (or_introl eq_refl)). congruence.
Qed.

Lemma first_match_some (patterns : list regex) (all_files matches : list path) :
  first_match patterns all_files = Some matches <->
  exists before pattern after,
    patterns = before ++ pattern :: after /\
    (forall p, In p before -> matches_of p all_files = []) /\
    matches_of pattern all_files = matches /\
    matches <> [].
Proof.
  revert matches. induction patterns as [|q rest IH]; intros matches; simpl.
  - split; [discriminate|].
    intros (before & p & after & H & _). destruct before; discriminate.
  - destruct (matches_of q all_files) as [|f fs] eqn:E.
    + rewrite IH. split.
      * intros (before & p & after & -> & Hb & Hm & Hne).
        exists (q :: before), p, after. repeat split; auto.
        intros p' [<-|Hp']; auto.
      * intros (before & p & after & Hsplit & Hb & Hm & Hne).
        destruct before as [|b before]; simpl in Hsplit.
        -- injection Hsplit as <- <-. congruence.
        -- injection Hsplit as <- ->.
           exists before, p, after. repeat split; auto.
           intros p' Hp'. apply Hb. right. exact Hp'.
    + split.
      * intros [= <-]. exists [], q, rest. repeat split; auto.
        -- intros p [].
        -- discriminate.
      * intros (before & p & after & Hsplit & Hb & Hm & Hne).
        destruct before as [|b before]; simpl in Hsplit.
        -- injection Hsplit as <- <-. congruence.
        -- injection Hsplit as <- ->.
           specialize (Hb q (or_introl eq_refl)). congruence.
Qed.


(** *** The outer loop *)

Lemma classify_systems (table : list (string * list regex)) (all_files : list path) :
  map system (classify table all_files)
  = map fst (filter (fun t => detects (snd t) all_files) table).
Proof.
  induction table as [|[sys ps] rest IH]; simpl; [reflexivity|].
  unfold detects at 1. simpl.
  destruct (first_match ps all_files); simpl; rewrite IH; reflexivity.
Qed.

Lemma classify_in (table : list (string * list regex)) (all_files : list path)
      (d : detected) :
  In d (classify table all_files) <->
  exists patterns, In (system d, patterns) table /\
                   first_match patterns all_files = Some (found_files d).
Proof.
  induction table as [|[sys ps] rest IH]; simpl.
  - split; [intros [] | intros (ps & [] & _)].
  - destruct (first_match ps all_files) as [m|] eqn:E; simpl; rewrite IH.
    + split.
      * intros [<-|(ps' & Hin & Hm)]; simpl; eauto.
      * intros (ps' & [Heq|Hin] & Hm).
        -- left. injection Heq as Hs Hp. subst ps'.
           rewrite E in Hm. injection Hm as Hm.
           destruct d as [s fs]; simpl in *. subst. reflexivity.
        -- right. eauto.
    + split.
      * intros (ps' & Hin & Hm). eauto.
      * intros (ps' & [Heq|Hin] & Hm); [|eauto].
        injection Heq as Hs Hp. subst ps'. congruence.
Qed.



(** *** The scan *)

Lemma iterdir_children (p : path) (entries : list (string * node)) :
  iterdir p (Dir true entries) = Ok (children p entries).
Proof. reflexivity. Qed.

(** The generator yields the regular files of the listing, unless an
    entry cannot be examined. *)
Lemma files_of_spec (listing : list (path * node)) :
  match files_of listing with
  | Ok files =>
      existsb (fun e => barred (snd e)) listing = false /\
      files = regular_files listing
  | Raise _ => existsb (fun e => barred (snd e)) listing = true
  end.
Proof.
  induction listing as [|[f n] rest IH]; [split; reflexivity|].
  unfold regular_files in *.
  destruct n as [r c|l es|o o'| |why]; cbn [files_of is_file bind];
    try reflexivity;
    destruct (files_of rest) as [files|e];
    cbn [bind existsb filter map fst snd barred regular orb];
    try exact IH;
    destruct IH as [IH1 IH2]; (split; [exact IH1|]);
    rewrite IH2; reflexivity.
Qed.

Lemma existsb_children {A : Type} (g : node -> bool) (p : A)
      (f : A -> string -> path) (entries : list (string * node)) :
  existsb (fun e => g (snd e)) (map (fun e => (f p (fst e), snd e)) entries)
  = existsb (fun e => g (snd e)) entries.
Proof.
  induction entries as [|e es IH]; [reflexivity|].
  cbn [map existsb snd]. rewrite IH. reflexivity.
Qed.

Lemma barred_children (p : path) (entries : list (string * node)) :
  existsb (fun e => barred (snd e)) (children p entries)
  = existsb (fun e => barred (snd e)) entries.
Proof.
  exact (existsb_children barred p (fun p nm => p ++ [nm]) entries).
Qed.

Lemma unscannable_children (p : path) (entries : list (string * node)) :
  existsb (fun e => unscannable (snd e)) (children p entries)
  = existsb (fun e => unscannable (snd e)) entries.
Proof.
  exact (existsb_children unscannable p (fun p nm => p ++ [nm]) entries).
Qed.

Lemma barred_unscannable (listing : list (path * node)) :
  existsb (fun e => barred (snd e)) listing = true ->
  existsb (fun e => unscannable (snd e)) listing = true.
Proof.
  intros H. apply existsb_exists in H. destruct H as (e & Hin & Hb).
  apply existsb_exists. exists e. split; [exact Hin|].
  destruct (snd e); try discriminate. reflexivity.
Qed.

(** The second loop appends the regular files of the listable
    subdirectories, unless it meets an entry at which the scan stops. *)
Lemma extend_subdirs_spec (listing : list (path * node)) (acc : list path) :
  match extend_subdirs listing acc with
  | Ok files =>
      existsb (fun e => unscannable (snd e)) listing = false /\
      files = acc ++ flat_map files_below listing
  | Raise _ => existsb (fun e => unscannable (snd e)) listing = true
  end.
Proof.
  revert acc. induction listing as [|[p n] rest IH]; intros acc.
  - split; [reflexivity|]. simpl. rewrite app_nil_r. reflexivity.
  - destruct n as [r c|[|] es|o o'| |why];
      cbn [extend_subdirs is_dir bind iterdir existsb flat_map snd fst
           unscannable orb];
      try exact (IH acc); try reflexivity.
    fold (children p es).
    pose proof (files_of_spec (children p es)) as Hin.
    destruct (files_of (children p es)) as [files|e]; cbn [bind].
    + destruct Hin as [Hb ->]. rewrite barred_children in Hb.
      rewrite Hb. cbn [orb].
      specialize (IH (acc ++ regular_files (children p es))).
      destruct (extend_subdirs rest _) as [all|e]; [|exact IH].
      destruct IH as [IH1 ->]. split; [exact IH1|].
      unfold files_below at 2. cbn [snd fst]. rewrite app_assoc. reflexivity.
    + rewrite barred_children in Hin. rewrite Hin. reflexivity.
Qed.

(** When the scan succeeds, and what it collects then. *)
Lemma collect_files_ok (directory : path) (cwd : node)
      (all_files : list path) :
  collect_files directory cwd = Ok all_files <->
  exists entries,
    resolve cwd directory = Ok (Dir true entries) /\
    existsb (fun e => unscannable (snd e)) (children directory entries)
    = false /\
    all_files = regular_files (children directory entries)
                ++ flat_map files_below (children directory entries).
Proof.
  unfold collect_files.
  destruct (resolve cwd directory) as [[r c|[|] es|o o'| |why]|e];
    cbn [bind iterdir];
    try (split; [discriminate | intros (es' & He & _); discriminate]).
  fold (children directory es).
  pose proof (files_of_spec (children directory es)) as Htop.
  destruct (files_of (children directory es)) as [files|e]; cbn [bind].
  - destruct Htop as [_ ->].
    pose proof (extend_subdirs_spec (children directory es)
                  (regular_files (children directory es))) as Hsub.
    destruct (extend_subdirs _ _) as [all|e].
    + destruct Hsub as [Hs ->]. split.
      * intros H. apply ok_inj in H. subst all_files. exists es. auto.
      * intros (es' & He & _ & ->). apply ok_inj in He.
        injection He as <-. reflexivity.
    + split; [discriminate|]. intros (es' & He & Hs & _).
      apply ok_inj in He. injection He as <-. congruence.
  - split; [discriminate|]. intros (es' & He & Hs & _).
    apply ok_inj in He. injection He as <-.
    apply barred_unscannable in Htop. congruence.
Qed.

Lemma in_regular_files (p : path) (entries : list (string * node)) (file : path) :
  In file (regular_files (children p entries)) <->
  exists nm r c, In (nm, File r c) entries /\ file = p ++ [nm].
Proof.
  unfold regular_files, children. rewrite in_map_iff. split.
  - intros ([q n] & <- & H). apply filter_In in H. destruct H as [H Hf].
    apply in_map_iff in H. destruct H as ([nm n'] & [= <- <-] & Hin).
    simpl in *. destruct n' as [r c| | | |]; try discriminate. eauto.
  - intros (nm & r & c & Hin & ->).
    exists (p ++ [nm], File r c). split; [reflexivity|].
    apply filter_In. split; [|reflexivity].
    apply in_map_iff. exists (nm, File r c). auto.
Qed.

Lemma in_files_below (p : path) (entries : list (string * node)) (file : path) :
  In file (flat_map files_below (children p entries)) <->
  exists sub sub_entries nm r c,
    In (sub, Dir true sub_entries) entries /\
    In (nm, File r c) sub_entries /\
    file = p ++ [sub; nm].
Proof.
  rewrite in_flat_map. unfold children at 1. split.
  - intros ([q n] & H & Hf). apply in_map_iff in H.
    destruct H as ([sub n'] & [= <- <-] & Hin). unfold files_below in Hf.
    simpl in Hf. destruct n' as [r c|[|] es|o o'| |why]; try contradiction.
    apply in_regular_files in Hf. destruct Hf as (nm & r & c & Hnm & ->).
    exists sub, es, nm, r, c. repeat split; auto.
    rewrite <- app_assoc. reflexivity.
  - intros (sub & es & nm & r & c & Hsub & Hnm & ->).
    exists (p ++ [sub], Dir true es). split.
    + apply in_map_iff. exists (sub, Dir true es). auto.
    + unfold files_below. simpl. apply in_regular_files.
      exists nm, r, c. split; [exact Hnm|].
      rewrite <- app_assoc. reflexivity.
Qed.

(** What the scan collects, when it succeeds. *)
Lemma collect_files_in (directory : path) (cwd : node) (all_files : list path) :
  collect_files directory cwd = Ok all_files ->
  exists entries,
    resolve cwd directory = Ok (Dir true entries) /\
    forall file,
      In file all_files <->
      (exists nm r c, In (nm, File r c) entries /\ file = directory ++ [nm]) \/
      (exists sub sub_entries nm r c,
          In (sub, Dir true sub_entries) entries /\
          In (nm, File r c) sub_entries /\
          file = directory ++ [sub; nm]).
Proof.
  intros H. apply collect_files_ok in H.
  destruct H as (es & Hr & _ & ->). exists es. split; [exact Hr|].
  intros file. rewrite in_app_iff, in_regular_files, in_files_below. reflexivity.
Qed.

(** *** What the result depends on *)

Lemma matches_of_nil (pattern : regex) (all_files : list path) :
  matches_of pattern all_files = [] <->
  forall file, In file all_files -> re_match pattern (name file) = false.
Proof.
  unfold matches_of. induction all_files as [|f fs IH]; simpl.
  - split; [intros _ file [] | reflexivity].
  - destruct (re_match pattern (name f)) eqn:E.
    + split; [discriminate|]. intros H.
      specialize (H f (or_introl eq_refl)). congruence.
    + rewrite IH. split.
      * intros H file [<-|Hin]; auto.
      * intros H file Hin. apply H. right. exact Hin.
Qed.

Lemma detects_false (patterns : list regex) (all_files : list path) :
  detects patterns all_files = false <->
  forall p file, In p patterns -> In file all_files ->
                 re_match p (name file) = false.
Proof.
  unfold detects.
  destruct (first_match patterns all_files) as [m|] eqn:E.
  - split; [discriminate|]. intros H.
    apply first_match_some in E.
    destruct E as (before & p & after & -> & _ & Hm & Hne).
    exfalso. apply Hne. rewrite <- Hm. apply matches_of_nil.
    intros file Hin. apply H; [|exact Hin].
    apply in_or_app. right. left. reflexivity.
  - split; [|reflexivity]. intros _ p file Hp Hin.
    rewrite first_match_none in E.
    exact (proj1 (matches_of_nil p all_files) (E p Hp) file Hin).
Qed.

Lemma detects_same_members (patterns : list regex) (fs fs' : list path) :
  (forall file, In file fs <-> In file fs') ->
  detects patterns fs = detects patterns fs'.
Proof.
  intros Hsame.
  destruct (detects patterns fs) eqn:E, (detects patterns fs') eqn:E';
    try reflexivity.
  - rewrite detects_false in E'.
    assert (detects patterns fs = false); [|congruence].
    apply detects_false. intros p file Hp Hin. apply E'; [exact Hp|].
    apply Hsame. exact Hin.
  - rewrite detects_false in E.
    assert (detects patterns fs' = false); [|congruence].
    apply detects_false. intros p file Hp Hin. apply E; [exact Hp|].
    apply Hsame. exact Hin.
Qed.

Lemma classify_systems_same_members (table : list (string * list regex))
      (fs fs' : list path) :
  (forall file, In file fs <-> In file fs') ->
  map system (classify table fs) = map system (classify table fs').
Proof.
  intros Hsame. rewrite !classify_systems. f_equal.
  apply filter_ext. intros t. apply detects_same_members. exact Hsame.
Qed.

Lemma classify_nil (table : list (string * list regex)) (all_files : list path) :
  classify table all_files = [] <->
  forall t, In t table -> detects (snd t) all_files = false.
Proof.
  induction table as [|[sys ps] rest IH]; simpl.
  - split; [intros _ t [] | reflexivity].
  - unfold detects at 1. simpl.
    destruct (first_match ps all_files) eqn:E.
    + split; [discriminate|]. intros H.
      specialize (H (sys, ps) (or_introl eq_refl)). unfold detects in H.
      simpl in H. rewrite E in H. discriminate.
    + rewrite IH. split.
      * intros H t [<-|Hin].
        -- unfold detects. simpl. rewrite E. reflexivity.
        -- apply H. exact Hin.
      * intros H t Hin. apply H. right. exact Hin.
Qed.

Lemma build_systems_names :
  map fst build_systems =
  ["Maven"; "Gradle"; "npm"; "Yarn"; "Python/pip"; "Poetry"; "CMake"; "Make";
   "Cargo (Rust)"; "Composer (PHP)"; "Bazel"; "Ant"; "sbt (Scala)";
   "Go Modules"; "Lazarus"; "SCons"].
Proof. reflexivity. Qed.

Lemma build_systems_unique : NoDup (map fst build_systems).
Proof.
  rewrite build_systems_names.
  repeat (constructor; [simpl; intuition discriminate|]). constructor.
Qed.

Lemma detect_build_system_ok (directory : path) (cwd : node)
      (found : list detected) :
  detect_build_system directory cwd = Ok found ->
  exists all_files,
    collect_files directory cwd = Ok all_files /\
    found = classify build_systems all_files.
Proof.
  unfold detect_build_system. intros H.
  destruct (collect_files directory cwd) as [all_files|e];
    [|unfold bind in H; discriminate].
  exists all_files. split; [reflexivity|].
  unfold bind in H. apply ok_inj in H. symmetry. exact H.
Qed.

(* ----------------------------------------------------------------- *)
(** *** C2: the first satisfied pattern of a system wins *)



Lemma found_files_collected (directory : path) (cwd : node)
      (found : list detected) (d : detected) (file : path) :
  detect_build_system directory cwd = Ok found ->
  In d found -> In file (found_files d) ->
  exists all_files patterns pattern,
    collect_files directory cwd = Ok all_files /\
    In (system d, patterns) build_systems /\
    In pattern patterns /\
    In file all_files /\
    re_match pattern (name file) = true.
Proof.
  intros Hd Hin Hfile. apply detect_build_system_ok in Hd.
  destruct Hd as (all_files & Hc & ->).
  apply classify_in in Hin. destruct Hin as (patterns & Ht & Hm).
  apply first_match_some in Hm.
  destruct Hm as (before & p & after & -> & _ & Hm & _).
  rewrite <- Hm in Hfile. unfold matches_of in Hfile.
  apply filter_In in Hfile. destruct Hfile as [Hall Hre].
  exists all_files, (before ++ p :: after), p. repeat split; auto.
  apply in_or_app. right. left. reflexivity.
Qed.

(* ----------------------------------------------------------------- *)
(** *** C3: the scan is two levels deep *)

(** C3.  Every file of every element of the result is a regular file that
    is an entry of the scanned directory, or a regular file that is an
    entry of a directory that is itself an entry of the scanned directory.
    So no path that lies three or more parts below the scanned directory
    is ever part of the result. *)
Theorem scan_is_two_levels_deep
        (directory : path) (cwd : node) (found : list detected)
        (d : detected) (file : path) :
  detect_build_system directory cwd = Ok found ->
  In d found -> In file (found_files d) ->
  (exists entries,
      resolve cwd directory = Ok (Dir true entries) /\
      ((exists nm r c,
           In (nm, File r c) entries /\ file = directory ++ [nm]) \/
       (exists sub sub_entries nm r c,
           In (sub, Dir true sub_entries) entries /\
           In (nm, File r c) sub_entries /\
           file = directory ++ [sub; nm]))) /\
  (forall below, 3 <= List.length below -> file <> directory ++ below).
Proof.
  intros Hd Hin Hfile.
  destruct (found_files_collected directory cwd found d file Hd Hin Hfile)
    as (all_files & _ & _ & Hc & _ & _ & Hall & _).
  apply collect_files_in in Hc. destruct Hc as (entries & Hres & Hiff).
  apply Hiff in Hall. split.
  - exists entries. split; [exact Hres | exact Hall].
  - intros below Hlen Heq.
    assert (Hl : List.length file <= List.length directory + 2).
    { destruct Hall as [(nm & r & c & _ & ->)
                       |(sub & es & nm & r & c & _ & _ & ->)];
        rewrite length_app; simpl; lia. }
    rewrite Heq, length_app in Hl. lia.
Qed.

Lemma scan_is_two_levels_deep_witness :
  detect_build_system [] Examples.nested
  = Ok [{| system := "Maven"; found_files := [["sub"; "pom.xml"]] |}] /\
  (exists entries,
      resolve Examples.nested [] = Ok (Dir true entries) /\
      ((exists nm r c,
           In (nm, File r c) entries /\ ["sub"; "pom.xml"] = [] ++ [nm]) \/
       (exists sub sub_entries nm r c,
           In (sub, Dir true sub_entries) entries /\
           In (nm, File r c) sub_entries /\
           ["sub"; "pom.xml"] = [] ++ [sub; nm]))) /\
  (forall below, 3 <= List.length below -> ["sub"; "pom.xml"] <> [] ++ below).
Proof.
  assert (H1 : detect_build_system [] Examples.nested
               = Ok [{| system := "Maven";
                        found_files := [["sub"; "pom.xml"]] |}])
    by reflexivity.
  split; [exact H1|].
  apply (scan_is_two_levels_deep [] Examples.nested _
           {| system := "Maven"; found_files := [["sub"; "pom.xml"]] |} _ H1).
  - simpl. left. reflexivity.
  - simpl. left. reflexivity.
Defined.

(** The build file two levels down is not reported. *)
Example nested_build_file_ignored :
  detect_build_system [] Examples.nested
  = Ok [{| system := "Maven"; found_files := [["sub"; "pom.xml"]] |}].
Proof. reflexivity. Qed.

(* ----------------------------------------------------------------- *)
(** *** C4: the result is in table order *)

Lemma collect_files_permuted (directory : path) (cwd cwd' : node)
      (entries entries' : list (string * node)) (all_files : list path) :
  resolve cwd directory = Ok (Dir true entries) ->
  resolve cwd' directory = Ok (Dir true entries') ->
  Permutation entries entries' ->
  collect_files directory cwd = Ok all_files ->
  exists all_files',
    collect_files directory cwd' = Ok all_files' /\
    forall file, In file all_files <-> In file all_files'.
Proof.
  intros Hr Hr' Hperm Hc.
  assert (Hmem : forall e, In e entries <-> In e entries').
  { intros e. split; apply Permutation_in;
      [exact Hperm | apply Permutation_sym; exact Hperm]. }
  apply collect_files_ok in Hc. destruct Hc as (es & He & E & ->).
  rewrite Hr in He. apply ok_inj in He. injection He as <-.
  assert (E' : existsb (fun e => unscannable (snd e))
                       (children directory entries') = false).
  { rewrite unscannable_children in E. rewrite unscannable_children.
    destruct (existsb _ entries') eqn:E'; [|reflexivity].
    apply existsb_exists in E'. destruct E' as (e & He & Hu).
    apply Hmem in He.
    assert (existsb (fun e => unscannable (snd e)) entries = true);
      [|congruence].
    apply existsb_exists. eauto. }
  eexists. split.
  { apply collect_files_ok. exists entries'. split; [exact Hr'|].
    split; [exact E' | reflexivity]. }
  intros file. rewrite !in_app_iff, !in_regular_files, !in_files_below.
  split; intros [(nm & r & c & H1 & ->)|(sub & es & nm & r & c & H1 & H2 & ->)].
  - left. exists nm, r, c. split; [apply Hmem; exact H1 | reflexivity].
  - right. exists sub, es, nm, r, c.
    repeat split; [apply Hmem; exact H1 | exact H2].
  - left. exists nm, r, c. split; [apply Hmem; exact H1 | reflexivity].
  - right. exists sub, es, nm, r, c.
    repeat split; [apply Hmem; exact H1 | exact H2].
Qed.

(** C4.  The systems of the result are those systems of the pattern table
    that have a pattern with a match, in the order of the table.  The
    order in which the directory enumerates its entries, and any other
    reordering of the collected files, leaves this sequence unchanged.
    The result is empty exactly when no pattern of the table matches any
    collected file. *)
Theorem matches_in_table_order
        (directory : path) (cwd cwd' : node)
        (entries entries' : list (string * node)) (found : list detected) :
  resolve cwd directory = Ok (Dir true entries) ->
  resolve cwd' directory = Ok (Dir true entries') ->
  Permutation entries entries' ->
  detect_build_system directory cwd = Ok found ->
  exists all_files,
    collect_files directory cwd = Ok all_files /\
    map system found
    = map fst (filter (fun t => detects (snd t) all_files) build_systems) /\
    (exists found',
        detect_build_system directory cwd' = Ok found' /\
        map system found' = map system found) /\
    (forall all_files',
        Permutation all_files all_files' ->
        map system (classify build_systems all_files') = map system found) /\
    (found = [] <->
     forall sys patterns pattern file,
       In (sys, patterns) build_systems -> In pattern patterns ->
       In file all_files -> re_match pattern (name file) = false).
Proof.
  intros Hr Hr' Hperm Hd. apply detect_build_system_ok in Hd.
  destruct Hd as (all_files & Hc & ->). exists all_files.
  split; [exact Hc|]. split; [apply classify_systems|]. split; [|split].
  - destruct (collect_files_permuted directory cwd cwd' entries entries'
                all_files Hr Hr' Hperm Hc) as (all_files' & Hc' & Hsame).
    exists (classify build_systems all_files'). split.
    + unfold detect_build_system. rewrite Hc'. reflexivity.
    + apply classify_systems_same_members. intros file. symmetry. apply Hsame.
  - intros all_files' Hp. apply classify_systems_same_members.
    intros file. split; apply Permutation_in;
      [apply Permutation_sym; exact Hp | exact Hp].
  - rewrite classify_nil. split.
    + intros H sys patterns pattern file Ht Hp Hf.
      specialize (H (sys, patterns) Ht). simpl in H.
      rewrite detects_false in H. apply H; assumption.
    + intros H [sys patterns] Ht. simpl. apply detects_false.
      intros p file Hp Hf. exact (H sys patterns p file Ht Hp Hf).
Qed.

Lemma matches_in_table_order_witness :
  resolve Examples.yarn_then_maven []
  = Ok (Dir true [("yarn.lock", Examples.plain); ("pom.xml", Examples.plain)]) /\
  resolve Examples.maven_then_yarn []
  = Ok (Dir true [("pom.xml", Examples.plain); ("yarn.lock", Examples.plain)]) /\
  detect_build_system [] Examples.yarn_then_maven
  = Ok [{| system := "Maven"; found_files := [["pom.xml"]] |};
        {| system := "Yarn"; found_files := [["yarn.lock"]] |}] /\
  exists all_files,
    collect_files [] Examples.yarn_then_maven = Ok all_files /\
    map system [{| system := "Maven"; found_files := [["pom.xml"]] |};
                {| system := "Yarn"; found_files := [["yarn.lock"]] |}]
    = map fst (filter (fun t => detects (snd t) all_files) build_systems) /\
    (exists found',
        detect_build_system [] Examples.maven_then_yarn = Ok found' /\
        map system found'
        = map system [{| system := "Maven"; found_files := [["pom.xml"]] |};
                      {| system := "Yarn"; found_files := [["yarn.lock"]] |}]) /\
    (forall all_files',
        Permutation all_files all_files' ->
        map system (classify build_systems all_files')
        = map system [{| system := "Maven"; found_files := [["pom.xml"]] |};
                      {| system := "Yarn"; found_files := [["yarn.lock"]] |}]) /\
    ([{| system := "Maven"; found_files := [["pom.xml"]] |};
      {| system := "Yarn"; found_files := [["yarn.lock"]] |}] = [] <->
     forall sys patterns pattern file,
       In (sys, patterns) build_systems -> In pattern patterns ->
       In file all_files -> re_match pattern (name file) = false).
Proof.
  split; [reflexivity|]. split; [reflexivity|]. split; [reflexivity|].
  apply (matches_in_table_order [] Examples.yarn_then_maven
           Examples.maven_then_yarn
           [("yarn.lock", Examples.plain); ("pom.xml", Examples.plain)]
           [("pom.xml", Examples.plain); ("yarn.lock", Examples.plain)]).
  - reflexivity.
  - reflexivity.
  - apply perm_swap.
  - reflexivity.
Defined.

(** An empty directory: the scan succeeds and finds nothing. *)
Example empty_directory : detect_build_system [] (Dir true []) = Ok [].
Proof. reflexivity. Qed.

(* ----------------------------------------------------------------- *)
(** *** C9: a lone Cargo.toml *)

Lemma classify_single (table : list (string * list regex)) (file : path) :
  classify table [file]
  = map (fun t => {| system := fst t; found_files := [file] |})
        (filter (fun t => existsb (fun p => re_match p (name file)) (snd t))
                table).
Proof.
  assert (Hone : forall ps,
             first_match ps [file]
             = if existsb (fun p => re_match p (name file)) ps
               then Some [file] else None).
  { induction ps as [|p ps IH]; simpl; [reflexivity|].
    destruct (re_match p (name file)); simpl; [reflexivity | exact IH]. }
  induction table as [|[sys ps] rest IH]; simpl; [reflexivity|].
  rewrite Hone.
  destruct (existsb _ ps); simpl; rewrite IH; reflexivity.
Qed.

(** C9.  When the scan of a directory collects exactly one file, and that
    file is named Cargo.toml, the result is exactly one element: the one
    for "Cargo (Rust)", with that file. *)
Theorem lone_cargo_toml
        (directory : path) (cwd : node) (file : path) :
  collect_files directory cwd = Ok [file] ->
  name file = "Cargo.toml" ->
  detect_build_system directory cwd
  = Ok [{| system := "Cargo (Rust)"; found_files := [file] |}].
Proof.
  intros Hc Hname. unfold detect_build_system. rewrite Hc. unfold bind.
  rewrite classify_single, Hname. reflexivity.
Qed.

Lemma lone_cargo_toml_witness :
  collect_files [] Examples.cargo_only = Ok [["Cargo.toml"]] /\
  name ["Cargo.toml"] = "Cargo.toml" /\
  detect_build_system [] Examples.cargo_only
  = Ok [{| system := "Cargo (Rust)"; found_files := [["Cargo.toml"]] |}].
Proof.
  split; [reflexivity|]. split; [reflexivity|].
  apply (lone_cargo_toml [] Examples.cargo_only ["Cargo.toml"]); reflexivity.
Defined.

(** The directory itself, whatever the file holds and whichever directory
    is scanned. *)
Corollary lone_cargo_toml_directory
          (directory : path) (cwd : node) (r : bool) (c : contents) :
  resolve cwd directory = Ok (Dir true [("Cargo.toml", File r c)]) ->
  detect_build_system directory cwd
  = Ok [{| system := "Cargo (Rust)";
           found_files := [directory ++ ["Cargo.toml"]] |}].
Proof.
  intros Hr. unfold detect_build_system.
  assert (Hc : collect_files directory cwd = Ok [directory ++ ["Cargo.toml"]]).
  { apply collect_files_ok. exists [("Cargo.toml", File r c)].
    split; [exact Hr|]. split; reflexivity. }
  rewrite Hc. unfold bind.
  rewrite classify_single. unfold name. rewrite last_last. reflexivity.
Qed.

(* ----------------------------------------------------------------- *)
(** *** The command line *)

Lemma main_no_system (as_json : bool) (cwd : node) :
  detect_build_system [] cwd = Ok [] ->
  main as_json cwd
  = if as_json
    then Ok [Dumps (JObj [("systems", JArr []); ("package_info", JNull)]) None]
    else Ok [Line [Lit "No known build system detected."]].
Proof. intros H. unfold main. rewrite H. reflexivity. Qed.

Lemma main_some_system (as_json : bool) (cwd : node) (found : list detected) :
  detect_build_system [] cwd = Ok found -> found <> [] ->
  main as_json cwd
  = (info <- detect_package_type [] cwd ;;
     if as_json
     then Ok [Dumps (json_result found info) (Some 2)]
     else
       info' <- detect_package_type [] (manifest_read cwd) ;;
       Ok ((Line [Lit "Detected build systems:"]
            :: flat_map print_system found)
           ++ print_package_info info')).
Proof.
  intros H Hne. unfold main. rewrite H. unfold bind at 1.
  destruct found as [|d found]; [contradiction | reflexivity].
Qed.

(** The body of [detect_package_type] under its handler, as a function
    of what [json.load] yields or raises. *)
Lemma body_manifest_info (loaded : result json) :
  except_JSONDecodeError
    (data <- loaded ;;
     nm <- get data "name" (JStr "Unknown") ;;
     version <- get data "version" (JStr "Unknown") ;;
     deps <- get data "dependencies" (JObj []) ;;
     ks <- keys deps ;;
     Ok [("name", nm); ("version", version);
         ("dependencies", JArr (map JStr ks))])
    []
  = manifest_info loaded.
Proof.
  destruct loaded as [[]|[]]; try reflexivity.
  unfold manifest_info, member, bind, get, keys, except_JSONDecodeError.
  destruct (assoc "dependencies" members) as [[]|]; reflexivity.
Qed.

(** [detect_package_type] by what [package.json] leads to. *)
Lemma detect_package_type_cases (directory : path) (cwd : node) :
  detect_package_type directory cwd =
  match resolve cwd (directory ++ ["package.json"]) with
  | Ok Dangling => Ok []
  | Ok (Barred why) => Raise (raised why)
  | Ok n => manifest_info (open_load n)
  | Raise FileNotFoundError | Raise NotADirectoryError => Ok []
  | Raise e => Raise e
  end.
Proof.
  unfold detect_package_type, exists_. cbv zeta.
  destruct (resolve cwd (directory ++ ["package.json"])) as [n|e] eqn:E.
  - destruct n; cbn [bind]; try reflexivity; apply body_manifest_info.
  - destruct e; reflexivity.
Qed.

(** What [package.json] leads to once it has been read. *)
Lemma resolve_manifest_read (cwd : node) :
  resolve (manifest_read cwd) ["package.json"]
  = match resolve cwd ["package.json"] with
    | Ok n => Ok (read_once n)
    | Raise e => Raise e
    end.
Proof.
  destruct cwd as [r c|l es|o o'| |why]; try reflexivity.
  cbn [manifest_read resolve]. induction es as [|[k n] es IH]; [reflexivity|].
  cbn [map assoc fst snd]. rewrite (String.eqb_sym k "package.json").
  destruct (String.eqb "package.json" k) eqn:Ek.
  - cbn [assoc]. rewrite Ek. reflexivity.
  - cbn [assoc]. rewrite Ek. exact IH.
Qed.

(** The second call of the text mode reads what the first call read,
    unless [package.json] is a special file. *)
Lemma second_call_same (cwd : node) :
  (forall o o', resolve cwd ["package.json"] <> Ok (Special o o')) ->
  detect_package_type [] (manifest_read cwd) = detect_package_type [] cwd.
Proof.
  intros H. rewrite !detect_package_type_cases. cbn [app].
  rewrite resolve_manifest_read.
  destruct (resolve cwd ["package.json"]) as [n|e]; [|reflexivity].
  destruct n; try reflexivity. exfalso. exact (H _ _ eq_refl).
Qed.

Lemma main_scan_fails (as_json : bool) (cwd : node) (e : exn) :
  detect_build_system [] cwd = Raise e -> main as_json cwd = Raise e.
Proof. intros H. unfold main. rewrite H. reflexivity. Qed.

Lemma main_ok_scan_ok (as_json : bool) (cwd : node) (out : list printed) :
  main as_json cwd = Ok out ->
  exists found, detect_build_system [] cwd = Ok found.
Proof.
  intros H. destruct (detect_build_system [] cwd) as [found|e] eqn:E; [eauto|].
  rewrite (main_scan_fails as_json cwd e E) in H. discriminate.
Qed.

(* ----------------------------------------------------------------- *)
(** *** C7: package_info is null exactly when no system was detected *)



(* ----------------------------------------------------------------- *)
(** *** C5: a manifest that does not parse *)

(** What the handler of [detect_package_type] covers: a [package.json]
    whose text [json.load] rejects with [JSONDecodeError], and likewise a
    [package.json] that does not exist, give the empty dictionary. *)
Lemma parse_failure_is_swallowed (directory : path) (cwd : node) :
  (exists n, resolve cwd (directory ++ ["package.json"]) = Ok n /\
             open_load n = Raise JSONDecodeError) \/
  exists_ cwd (directory ++ ["package.json"]) = Ok false ->
  detect_package_type directory cwd = Ok [].
Proof.
  rewrite detect_package_type_cases. unfold exists_.
  intros [(n & -> & Hn)|H].
  - destruct n as [r c|l es|o o'| |why]; try (rewrite Hn; reflexivity).
    + reflexivity.
    + destruct why; discriminate.
  - destruct (resolve cwd (directory ++ ["package.json"])) as [n|e].
    + destruct n; try discriminate. reflexivity.
    + destruct e; try discriminate; reflexivity.
Qed.

(** C5.  A working directory whose [package.json] holds bytes that are
    not text in the encoding of [open], next to a [go.mod]: the scan
    reports npm and Go Modules, but reading the manifest raises
    [UnicodeDecodeError], which is not the exception that
    [detect_package_type] handles; the failure is not swallowed, and it
    ends the run with status 1 in either output mode. *)
Theorem undecodable_manifest_is_not_swallowed :
  detect_build_system [] Examples.undecodable_manifest
  = Ok [{| system := "npm"; found_files := [["package.json"]] |};
        {| system := "Go Modules"; found_files := [["go.mod"]] |}] /\
  detect_package_type [] Examples.undecodable_manifest
  = Raise UnicodeDecodeError /\
  forall as_json,
    main as_json Examples.undecodable_manifest = Raise UnicodeDecodeError /\
    exit_status (main as_json Examples.undecodable_manifest) = 1%Z.
Proof.
  split; [reflexivity|]. split; [reflexivity|].
  intros [|]; split; reflexivity.
Qed.

(** The specification's example: the manifest does not parse, the Go
    module file is still reported, and the run ends normally. *)
Example broken_manifest_run :
  detect_build_system [] Examples.broken_manifest
  = Ok [{| system := "npm"; found_files := [["package.json"]] |};
        {| system := "Go Modules"; found_files := [["go.mod"]] |}] /\
  detect_package_type [] Examples.broken_manifest = Ok [] /\
  exit_status (main false Examples.broken_manifest) = 0%Z.
Proof. repeat split. Qed.

(* ----------------------------------------------------------------- *)
(** *** C10: reported paths keep the subdirectory *)

Lemma string_app_assoc (s t u : string) :
  ((s ++ t) ++ u)%string = (s ++ (t ++ u))%string.
Proof. induction s as [|a s IH]; simpl; [reflexivity | rewrite IH; reflexivity]. Qed.

Lemma string_app_nil_r (s : string) : (s ++ "")%string = s.
Proof. induction s as [|a s IH]; simpl; [reflexivity | rewrite IH; reflexivity]. Qed.

Lemma string_length_append (s t : string) :
  String.length (s ++ t)%string = String.length s + String.length t.
Proof. induction s as [|a s IH]; simpl; [reflexivity | rewrite IH; reflexivity]. Qed.

Lemma print_system_in_report (found : list detected) (d : detected)
      (file : path) :
  In d found -> In file (found_files d) ->
  In (Line [Lit "   - "; Val (JStr (path_str file))])
     (flat_map print_system found).
Proof.
  intros Hd Hf. apply in_flat_map. exists d. split; [exact Hd|].
  unfold print_system. apply in_or_app. right.
  apply in_map_iff. exists file. auto.
Qed.

Lemma name_top (directory : path) (nm : string) :
  name (directory ++ [nm]) = nm.
Proof. unfold name. apply last_last. Qed.

Lemma name_below (directory : path) (sub nm : string) :
  name (directory ++ [sub; nm]) = nm.
Proof.
  unfold name. change [sub; nm] with ([sub] ++ [nm]).
  rewrite app_assoc. apply last_last.
Qed.

Lemma concat_cons (x : string) (l : list string) :
  l <> [] ->
  String.concat "/" (x :: l) = (x ++ "/" ++ String.concat "/" l)%string.
Proof. destruct l; [contradiction | reflexivity]. Qed.

Lemma concat_below (directory : path) (sub nm : string) :
  String.concat "/" (directory ++ [sub; nm])
  = (match directory with
     | [] => ""
     | _ => String.concat "/" directory ++ "/"
     end ++ sub ++ "/" ++ nm)%string.
Proof.
  induction directory as [|x l IH]; [reflexivity|].
  cbn [app]. rewrite concat_cons by (destruct l; discriminate).
  rewrite IH. destruct l as [|y l].
  - cbn [String.concat]. rewrite string_app_assoc. reflexivity.
  - rewrite (concat_cons x (y :: l)) by discriminate.
    rewrite !string_app_assoc. reflexivity.
Qed.

Lemma path_str_below (directory : path) (sub nm : string) :
  path_str (directory ++ [sub; nm])
  = (match directory with
     | [] => ""
     | _ => path_str directory ++ "/"
     end ++ sub ++ "/" ++ nm)%string.
Proof.
  unfold path_str at 1.
  destruct (directory ++ [sub; nm]) eqn:E;
    [destruct directory; discriminate|].
  rewrite <- E, concat_below. destruct directory; reflexivity.
Qed.

(** C10, amended.  A reported path is the path under which the scan
    reached the file: the scanned directory as it was given, then, for a
    file of an immediate subdirectory, that subdirectory, then the file
    name.  For every element of the result there is a pattern of its
    system such that the element's files are exactly these paths of the
    regular files of the directory and of its listable subdirectories
    whose bare name the pattern accepts.  The path of a file of a
    subdirectory is never the path of the bare name, and it is printed as
    [directory/sub/name], or [sub/name] when the working directory is
    scanned.  When the working directory is scanned, as [main] does, both
    output modes print the path of every reported file. *)
Theorem reported_paths_keep_subdirectory
        (directory : path) (cwd : node) (found : list detected)
        (d : detected) :
  detect_build_system directory cwd = Ok found -> In d found ->
  exists entries patterns pattern,
    resolve cwd directory = Ok (Dir true entries) /\
    In (system d, patterns) build_systems /\ In pattern patterns /\
    (forall file,
        In file (found_files d) <->
        (exists nm r c,
            In (nm, File r c) entries /\ re_match pattern nm = true /\
            file = directory ++ [nm]) \/
        (exists sub sub_entries nm r c,
            In (sub, Dir true sub_entries) entries /\
            In (nm, File r c) sub_entries /\ re_match pattern nm = true /\
            file = directory ++ [sub; nm])) /\
    (forall sub nm,
        directory ++ [sub; nm] <> directory ++ [nm] /\
        path_str (directory ++ [sub; nm]) <> nm /\
        path_str (directory ++ [sub; nm])
        = (match directory with
           | [] => ""
           | _ => path_str directory ++ "/"
           end ++ sub ++ "/" ++ nm)%string) /\
    (directory = [] ->
     forall file,
       In file (found_files d) ->
       (forall out,
           main false cwd = Ok out ->
           In (Line [Lit "   - "; Val (JStr (path_str file))]) out) /\
       (forall out,
           main true cwd = Ok out ->
           exists systems info files,
             out = [Dumps (JObj [("systems", JArr systems);
                                 ("package_info", info)]) (Some 2)] /\
             In (JObj [("name", JStr (system d)); ("files", JArr files)])
                systems /\
             In (JStr (path_str file)) files)).
Proof.
  intros Hd Hin.
  assert (Hne : found <> []) by (intros ->; contradiction).
  pose proof Hd as Hd'. apply detect_build_system_ok in Hd'.
  destruct Hd' as (all_files & Hc & Hfound).
  pose proof Hin as Hin'. rewrite Hfound in Hin'.
  apply classify_in in Hin'. destruct Hin' as (patterns & Ht & Hm).
  apply first_match_some in Hm.
  destruct Hm as (before & pattern & after & -> & _ & Hm & _).
  destruct (collect_files_in directory cwd all_files Hc)
    as (entries & Hres & Hiff).
  exists entries, (before ++ pattern :: after), pattern.
  split; [exact Hres|]. split; [exact Ht|].
  split; [apply in_or_app; right; left; reflexivity|].
  split; [|split].
  - intros file. rewrite <- Hm. unfold matches_of. rewrite filter_In, Hiff.
    split.
    + intros [[(nm & r & c & H1 & ->)|(sub & es & nm & r & c & H1 & H2 & ->)]
               Hre].
      * left. rewrite name_top in Hre. exists nm, r, c. auto.
      * right. rewrite name_below in Hre. exists sub, es, nm, r, c. auto.
    + intros [(nm & r & c & H1 & Hre & ->)
             |(sub & es & nm & r & c & H1 & H2 & Hre & ->)].
      * split; [left; eauto|]. rewrite name_top. exact Hre.
      * split; [right; exists sub, es, nm, r, c; auto|].
        rewrite name_below. exact Hre.
  - intros sub nm. split; [|split].
    + intros Heq. apply app_inv_head in Heq. discriminate.
    + rewrite path_str_below. intros Heq.
      apply (f_equal String.length) in Heq.
      rewrite !string_length_append in Heq. simpl in Heq. lia.
    + apply path_str_below.
  - intros -> file Hfile. split.
    + intros out Hout.
      rewrite (main_some_system false cwd found Hd Hne) in Hout.
      apply bind_ok in Hout. destruct Hout as (info & _ & Hout).
      apply bind_ok in Hout. destruct Hout as (info' & _ & Hout).
      apply ok_inj in Hout. subst out.
      right. apply in_or_app. left.
      exact (print_system_in_report found d file Hin Hfile).
    + intros out Hout.
      rewrite (main_some_system true cwd found Hd Hne) in Hout.
      apply bind_ok in Hout. destruct Hout as (info & _ & Hout).
      apply ok_inj in Hout. subst out.
      unfold json_result. eexists _, _, _. split; [reflexivity|]. split.
      * apply in_map_iff. exists d. split; [reflexivity | exact Hin].
      * apply in_map_iff. exists file. split; [reflexivity | exact Hfile].
Qed.

Lemma reported_paths_keep_subdirectory_witness :
  detect_build_system [] Examples.nested
  = Ok [{| system := "Maven"; found_files := [["sub"; "pom.xml"]] |}] /\
  main false Examples.nested
  = Ok [Line [Lit "Detected build systems:"];
        Line [Lit (String newline "🔨 "); Val (JStr "Maven")];
        Line [Lit "  Found files:"];
        Line [Lit "   - "; Val (JStr "sub/pom.xml")]] /\
  main true Examples.nested
  = Ok [Dumps (JObj [("systems",
                      JArr [JObj [("name", JStr "Maven");
                                  ("files", JArr [JStr "sub/pom.xml"])]]);
                     ("package_info", JObj [])])
              (Some 2)] /\
  In (Line [Lit "   - "; Val (JStr "sub/pom.xml")])
     [Line [Lit "Detected build systems:"];
      Line [Lit (String newline "🔨 "); Val (JStr "Maven")];
      Line [Lit "  Found files:"];
      Line [Lit "   - "; Val (JStr "sub/pom.xml")]] /\
  (exists systems info files,
      [Dumps (JObj [("systems",
                     JArr [JObj [("name", JStr "Maven");
                                 ("files", JArr [JStr "sub/pom.xml"])]]);
                    ("package_info", JObj [])])
             (Some 2)]
      = [Dumps (JObj [("systems", JArr systems);
                      ("package_info", info)]) (Some 2)] /\
      In (JObj [("name", JStr "Maven"); ("files", JArr files)]) systems /\
      In (JStr "sub/pom.xml") files) /\
  exists entries patterns pattern,
    resolve Examples.nested [] = Ok (Dir true entries) /\
    In ("Maven", patterns) build_systems /\ In pattern patterns /\
    (forall file,
        In file [["sub"; "pom.xml"]] <->
        (exists nm r c,
            In (nm, File r c) entries /\ re_match pattern nm = true /\
            file = [] ++ [nm]) \/
        (exists sub sub_entries nm r c,
            In (sub, Dir true sub_entries) entries /\
            In (nm, File r c) sub_entries /\ re_match pattern nm = true /\
            file = [] ++ [sub; nm])).
Proof.
  assert (H1 : detect_build_system [] Examples.nested
               = Ok [{| system := "Maven";
                        found_files := [["sub"; "pom.xml"]] |}])
    by reflexivity.
  destruct (reported_paths_keep_subdirectory [] Examples.nested _
              {| system := "Maven"; found_files := [["sub"; "pom.xml"]] |}
              H1 (or_introl eq_refl))
    as (entries & patterns & pattern & Hr & Ht & Hp & Hiff & _ & Hprint).
  destruct (Hprint eq_refl ["sub"; "pom.xml"] (or_introl eq_refl))
    as [Htext Hjson].
  split; [exact H1|]. split; [reflexivity|]. split; [reflexivity|].
  split; [exact (Htext _ eq_refl)|]. split; [exact (Hjson _ eq_refl)|].
  exists entries, patterns, pattern. auto.
Defined.

(** C10, as the claim words it, fails when another directory than the
    working directory is scanned: the file [proj/sub/pom.xml] is reported
    as [proj/sub/pom.xml], a path that starts with the scanned directory
    as it was given, and read from the scanned directory [proj] this path
    leads nowhere; the path relative to the scanned directory would be
    [sub/pom.xml]. *)
Lemma reported_path_is_not_relative :
  detect_build_system ["proj"] Examples.project_below
  = Ok [{| system := "Maven";
           found_files := [["proj"; "sub"; "pom.xml"]] |}] /\
  path_str ["proj"; "sub"; "pom.xml"] = "proj/sub/pom.xml" /\
  ~ relative_to_scanned ["proj"] Examples.project_below
      ["proj"; "sub"; "pom.xml"] /\
  relative_to_scanned ["proj"] Examples.project_below ["sub"; "pom.xml"].
Proof.
  split; [reflexivity|]. split; [reflexivity|]. split.
  - intros (r & c & H). discriminate H.
  - exists true, Malformed. reflexivity.
Qed.

(** What the two modes print for the nested project. *)
Example nested_report :
  main false Examples.nested
  = Ok [Line [Lit "Detected build systems:"];
        Line [Lit (String newline "🔨 "); Val (JStr "Maven")];
        Line [Lit "  Found files:"];
        Line [Lit "   - "; Val (JStr "sub/pom.xml")]] /\
  main true Examples.nested
  = Ok [Dumps (JObj [("systems",
                      JArr [JObj [("name", JStr "Maven");
                                  ("files", JArr [JStr "sub/pom.xml"])]]);
                     ("package_info", JObj [])])
              (Some 2)].
Proof. split; reflexivity. Qed.

(** Scanning another directory than the working directory: a reported
    path starts with the path of the scanned directory as it was given. *)
Lemma found_files_under_directory
      (directory : path) (cwd : node) (found : list detected)
      (d : detected) (file : path) :
  detect_build_system directory cwd = Ok found ->
  In d found -> In file (found_files d) ->
  exists rel,
    file = directory ++ rel /\ name file = name rel /\
    (List.length rel = 1 \/ List.length rel = 2).
Proof.
  intros Hd Hin Hfile.
  destruct (found_files_collected directory cwd found d file Hd Hin Hfile)
    as (all_files & _ & _ & Hc & _ & _ & Hall & _).
  apply collect_files_in in Hc. destruct Hc as (entries & _ & Hiff).
  apply Hiff in Hall. unfold name.
  destruct Hall as [(nm & r & c & _ & ->)|(sub & es & nm & r & c & _ & _ & ->)].
  - exists [nm]. split; [reflexivity|]. split; [|left; reflexivity].
    rewrite last_last. reflexivity.
  - exists [sub; nm]. split; [reflexivity|]. split; [|right; reflexivity].
    change [sub; nm] with ([sub] ++ [nm]). rewrite app_assoc, !last_last.
    reflexivity.
Qed.

(* ----------------------------------------------------------------- *)
(** *** C8: at most five dependencies are listed *)

Lemma assoc_in {A : Type} (k : string) (m : list (string * A)) (v : A) :
  assoc k m = Some v -> In (k, v) m.
Proof.
  induction m as [|[k' v'] m IH]; simpl; [discriminate|].
  destruct (String.eqb_spec k k') as [->|Hne].
  - intros [= ->]. left. reflexivity.
  - intros H. right. exact (IH H).
Qed.

(** A [package.json] that is a regular file of the working directory is
    itself a match for npm: the scan finds something. *)
Lemma manifest_is_detected (cwd : node) (r : bool) (c : contents)
      (found : list detected) :
  resolve cwd ["package.json"] = Ok (File r c) ->
  detect_build_system [] cwd = Ok found ->
  found <> [].
Proof.
  intros Hr Hd Hnil. subst found.
  apply detect_build_system_ok in Hd. destruct Hd as (all_files & Hc & Hcl).
  symmetry in Hcl. rewrite classify_nil in Hcl.
  destruct (collect_files_in [] cwd all_files Hc) as (entries & Hres & Hiff).
  simpl in Hres. injection Hres as ->. simpl in Hr.
  destruct (assoc "package.json" entries) as [n|] eqn:E; [|discriminate].
  simpl in Hr. injection Hr as ->. apply assoc_in in E.
  assert (Hin : In ["package.json"] all_files).
  { apply Hiff. left. exists "package.json", r, c. split; [exact E | reflexivity]. }
  assert (Ht : In ("npm",
                   [anchored [lit "package"; Opt (lit "-lock"); lit ".json"];
                    anchored [lit "npm-shrinkwrap.json"]]) build_systems)
    by (simpl; right; right; left; reflexivity).
  specialize (Hcl _ Ht). simpl in Hcl. rewrite detects_false in Hcl.
  specialize (Hcl _ ["package.json"] (or_introl eq_refl) Hin).
  vm_compute in Hcl. discriminate.
Qed.

Lemma detect_package_type_object (cwd : node)
      (members deps : list (string * json)) :
  resolve cwd ["package.json"] = Ok (File true (Document (JObj members))) ->
  assoc "dependencies" members = Some (JObj deps) ->
  detect_package_type [] cwd
  = Ok [("name",
         match assoc "name" members with
         | Some v => v | None => JStr "Unknown" end);
        ("version",
         match assoc "version" members with
         | Some v => v | None => JStr "Unknown" end);
        ("dependencies", JArr (map JStr (map fst deps)))].
Proof.
  intros Hr Hdeps. unfold detect_package_type, exists_. cbn [app].
  rewrite Hr. simpl. rewrite Hdeps. reflexivity.
Qed.

Lemma print_item_list (key : string) (items : list json) :
  print_item key (JArr items)
  = [Line [Lit (String newline ""); Val (JStr key); Lit ":"]]
    ++ map (fun item => Line [Lit "  - "; Val item]) (firstn 5 items)
    ++ (if Nat.ltb 5 (List.length items)
        then [Line [Lit "  ... and ";
                    Val (JInt (Z.of_nat (List.length items) - 5));
                    Lit " more"]]
        else []).
Proof. reflexivity. Qed.

Lemma block_at_end {A : Type} (a : list A) (x : A) (b c block : list A) :
  a ++ x :: (b ++ c ++ block ++ []) = (a ++ x :: b ++ c) ++ block.
Proof.
  rewrite app_nil_r. rewrite <- app_assoc. simpl. rewrite <- app_assoc.
  reflexivity.
Qed.

(** C8.  When the manifest of the working directory is a JSON object whose
    [dependencies] member is an object, the text mode ends with the
    dependency block: its heading, then one line for each of the first
    five keys of that object in the order of the document, then, exactly
    when there are more than five keys, one line that gives the number of
    the remaining ones.  With six keys that number is 1. *)
Theorem dependencies_truncated_to_five
        (cwd : node) (members deps : list (string * json))
        (out : list printed) :
  resolve cwd ["package.json"] = Ok (File true (Document (JObj members))) ->
  assoc "dependencies" members = Some (JObj deps) ->
  main false cwd = Ok out ->
  exists before,
    out = before
          ++ [Line [Lit (String newline ""); Val (JStr "dependencies"); Lit ":"]]
          ++ map (fun k => Line [Lit "  - "; Val (JStr k)])
                 (firstn 5 (map fst deps))
          ++ (if Nat.ltb 5 (List.length deps)
              then [Line [Lit "  ... and ";
                          Val (JInt (Z.of_nat (List.length deps) - 5));
                          Lit " more"]]
              else []) /\
    (List.length deps = 6 ->
     last out (Line [])
     = Line [Lit "  ... and "; Val (JInt 1); Lit " more"]).
Proof.
  intros Hr Hdeps Hm.
  destruct (main_ok_scan_ok false cwd out Hm) as (found & Hd).
  pose proof (manifest_is_detected cwd true _ found Hr Hd) as Hne.
  rewrite (main_some_system false cwd found Hd Hne) in Hm.
  rewrite second_call_same in Hm
    by (intros o o' Hs; rewrite Hr in Hs; discriminate).
  rewrite (detect_package_type_object cwd members deps Hr Hdeps) in Hm.
  unfold bind in Hm. apply ok_inj in Hm. symmetry in Hm. rename Hm into Hout.
  unfold print_package_info in Hout. cbn [flat_map fst snd] in Hout.
  rewrite (print_item_list "dependencies") in Hout.
  rewrite block_at_end in Hout.
  rewrite firstn_map, map_map, !length_map in Hout.
  eexists. split; [exact Hout|].
  intros H6. rewrite Hout, H6. cbn [Nat.ltb Nat.leb].
  rewrite !app_assoc. rewrite last_last. reflexivity.
Qed.

Lemma dependencies_truncated_to_five_witness :
  resolve Examples.npm_project ["package.json"]
  = Ok (File true (Document (JObj Examples.six_members))) /\
  assoc "dependencies" Examples.six_members = Some (JObj Examples.six_deps) /\
  exists out,
    main false Examples.npm_project = Ok out /\
    exists before,
      out = before
            ++ [Line [Lit (String newline ""); Val (JStr "dependencies");
                      Lit ":"]]
            ++ map (fun k => Line [Lit "  - "; Val (JStr k)])
                   (firstn 5 (map fst Examples.six_deps))
            ++ (if Nat.ltb 5 (List.length Examples.six_deps)
                then [Line [Lit "  ... and ";
                            Val (JInt (Z.of_nat (List.length Examples.six_deps)
                                       - 5));
                            Lit " more"]]
                else []) /\
      (List.length Examples.six_deps = 6 ->
       last out (Line [])
       = Line [Lit "  ... and "; Val (JInt 1); Lit " more"]).
Proof.
  split; [reflexivity|]. split; [reflexivity|].
  eexists. split; [reflexivity|].
  apply (dependencies_truncated_to_five Examples.npm_project
           Examples.six_members Examples.six_deps); reflexivity.
Defined.

(** The specification's example, as the text mode prints it. *)
Example six_dependencies_report :
  main false Examples.npm_project
  = Ok [Line [Lit "Detected build systems:"];
        Line [Lit (String newline "🔨 "); Val (JStr "npm")];
        Line [Lit "  Found files:"];
        Line [Lit "   - "; Val (JStr "package.json")];
        Line [Lit (String newline "Package information:")];
        Line [Val (JStr "name"); Lit ": "; Val (JStr "foo")];
        Line [Val (JStr "version"); Lit ": "; Val (JStr "1.0.0")];
        Line [Lit (String newline ""); Val (JStr "dependencies"); Lit ":"];
        Line [Lit "  - "; Val (JStr "a")];
        Line [Lit "  - "; Val (JStr "b")];
        Line [Lit "  - "; Val (JStr "c")];
        Line [Lit "  - "; Val (JStr "d")];
        Line [Lit "  - "; Val (JStr "e")];
        Line [Lit "  ... and "; Val (JInt 1); Lit " more"]].
Proof. reflexivity. Qed.

(* ----------------------------------------------------------------- *)
(** *** C6: when the scan fails, and what the process exits with *)

Lemma unscannable_entry (entries : list (string * node)) :
  existsb (fun e => unscannable (snd e)) entries = true <->
  (exists nm why, In (nm, Barred why) entries) \/
  (exists sub sub_entries, In (sub, Dir false sub_entries) entries) \/
  (exists sub sub_entries nm why,
      In (sub, Dir true sub_entries) entries /\
      In (nm, Barred why) sub_entries).
Proof.
  rewrite existsb_exists. split.
  - intros ([nm n] & Hin & Hu). cbn [snd] in Hu.
    destruct n as [r c|[|] es|o o'| |why]; try discriminate.
    + right. right. cbn [unscannable] in Hu. apply existsb_exists in Hu.
      destruct Hu as ([nm' n'] & Hin' & Hb). cbn [snd] in Hb.
      destruct n'; try discriminate. exists nm, es, nm', why. auto.
    + right. left. eauto.
    + left. eauto.
  - intros [(nm & why & H)|[(sub & es & H)|(sub & es & nm & why & H1 & H2)]].
    + exists (nm, Barred why). auto.
    + exists (sub, Dir false es). auto.
    + exists (sub, Dir true es). split; [exact H1|].
      cbn [snd unscannable]. apply existsb_exists.
      exists (nm, Barred why). auto.
Qed.

Lemma detect_raises_iff_collect (directory : path) (cwd : node) (e : exn) :
  detect_build_system directory cwd = Raise e <->
  collect_files directory cwd = Raise e.
Proof.
  unfold detect_build_system.
  destruct (collect_files directory cwd) as [all_files|e']; unfold bind.
  - split; discriminate.
  - split; intros [= ->]; reflexivity.
Qed.

(** X7.  The scan of the working directory raises exactly in these
    cases: the directory may not be listed; one of its entries cannot be
    examined; one of its entries is a directory that may not be listed;
    or an entry of one of its listable subdirectories cannot be examined.
    Nothing else makes it fail: not a file that may not be read, and not
    what lies deeper. *)
Theorem scan_fails_iff (listable : bool) (entries : list (string * node)) :
  (exists e, detect_build_system [] (Dir listable entries) = Raise e) <->
  listable = false \/
  (exists nm why, In (nm, Barred why) entries) \/
  (exists sub sub_entries, In (sub, Dir false sub_entries) entries) \/
  (exists sub sub_entries nm why,
      In (sub, Dir true sub_entries) entries /\
      In (nm, Barred why) sub_entries).
Proof.
  assert (Hraise :
    (exists e, detect_build_system [] (Dir listable entries) = Raise e) <->
    ~ exists all_files,
        collect_files [] (Dir listable entries) = Ok all_files).
  { split.
    - intros (e & He) (fs & Hfs). apply detect_raises_iff_collect in He.
      congruence.
    - intros Hn.
      destruct (collect_files [] (Dir listable entries)) as [fs|e] eqn:E.
      + exfalso. apply Hn. eauto.
      + exists e. apply detect_raises_iff_collect. exact E. }
  rewrite Hraise. split.
  - intros Hn. destruct listable; [|left; reflexivity]. right.
    apply unscannable_entry.
    destruct (existsb (fun e => unscannable (snd e)) entries) eqn:E;
      [reflexivity|].
    exfalso. apply Hn. eexists. apply collect_files_ok. exists entries.
    split; [reflexivity|]. rewrite unscannable_children.
    split; [exact E | reflexivity].
  - intros H (fs & Hfs). apply collect_files_ok in Hfs.
    destruct Hfs as (es & Hr & Hs & _).
    cbn [resolve] in Hr. apply ok_inj in Hr. injection Hr as -> ->.
    rewrite unscannable_children in Hs.
    destruct H as [H|H]; [discriminate|].
    apply unscannable_entry in H. congruence.
Qed.

(** A failed scan ends the process with a status that is not 0. *)
Lemma scan_failure_exit_status (as_json : bool) (cwd : node) (e : exn) :
  detect_build_system [] cwd = Raise e ->
  main as_json cwd = Raise e /\ exit_status (main as_json cwd) = 1%Z.
Proof.
  intros H. rewrite (main_scan_fails as_json cwd e H). split; reflexivity.
Qed.

(** A scan that finds nothing ends the process with status 0. *)
Lemma nothing_found_exit_status (as_json : bool) (cwd : node) :
  detect_build_system [] cwd = Ok [] ->
  exit_status (main as_json cwd) = 0%Z.
Proof.
  intros H. rewrite (main_no_system as_json cwd H).
  destruct as_json; reflexivity.
Qed.

(** C6.  A working directory whose [package.json] is the JSON document
    [[]]: the scan succeeds and reports npm, but [data.get] is then called
    on a list, the [AttributeError] is not the exception that
    [detect_package_type] handles, and the process ends with status 1 in
    either output mode. *)
Theorem successful_scan_exits_nonzero :
  detect_build_system [] Examples.array_manifest
  = Ok [{| system := "npm"; found_files := [["package.json"]] |}] /\
  detect_package_type [] Examples.array_manifest = Raise AttributeError /\
  forall as_json,
    main as_json Examples.array_manifest = Raise AttributeError /\
    exit_status (main as_json Examples.array_manifest) = 1%Z.
Proof.
  split; [reflexivity|]. split; [reflexivity|].
  intros [|]; split; reflexivity.
Qed.

(* ----------------------------------------------------------------- *)
(** *** C1: what [re.match] accepts *)

(** C1.  The pattern for Maven matches the name that is [pom.xml] followed
    by a newline, although that name as a whole does not match it: [$]
    also holds just before a newline that ends the name.  A directory with
    such a file is reported as a Maven project. *)
Theorem trailing_newline_name_is_matched :
  re_match (anchored [lit "pom.xml"]) ("pom.xml" ++ Examples.nl)%string = true /\
  re_fullmatch (anchored [lit "pom.xml"]) ("pom.xml" ++ Examples.nl)%string
  = false /\
  detect_build_system [] Examples.newline_name
  = Ok [{| system := "Maven";
           found_files := [[("pom.xml" ++ Examples.nl)%string]] |}].
Proof. repeat split. Qed.

(** Both spellings of a makefile are in the one element for Make. *)
Example both_makefiles :
  detect_build_system [] Examples.two_makefiles
  = Ok [{| system := "Make";
           found_files := [["Makefile"]; ["makefile"]] |}].
Proof. reflexivity. Qed.

(* ================================================================= *)
(** ** Further properties *)

(** *** What the matcher decides *)

Section StarLoop.

Variable body : regex.
Variable k : nat -> string -> bool.

(** The loop that [run] enters for [Star body]. *)
Let loop : nat -> nat -> string -> bool :=
  fix loop (fuel : nat) (pos : nat) (s : string) {struct fuel} : bool :=
    match fuel with
    | O => k pos s
    | S fuel' =>
        run body pos s
            (fun pos' s' =>
               Nat.ltb (String.length s') (String.length s)
               && loop fuel' pos' s')
        || k pos s
    end.

Hypothesis body_sound :
  forall pos s k',
    run body pos s k' = true ->
    exists s1 s2, s = (s1 ++ s2)%string /\ lang body s1 /\
                  k' (pos + String.length s1) s2 = true.

Hypothesis body_complete :
  forall pos s1 s2 k',
    lang body s1 -> k' (pos + String.length s1) s2 = true ->
    run body pos (s1 ++ s2)%string k' = true.

Lemma loop_sound (fuel pos : nat) (s : string) :
  loop fuel pos s = true ->
  exists s1 s2, s = (s1 ++ s2)%string /\ lang (Star body) s1 /\
                k (pos + String.length s1) s2 = true.
Proof.
  revert pos s. induction fuel as [|fuel IH]; intros pos s H; simpl in H.
  - exists ""%string, s. simpl. rewrite Nat.add_0_r.
    repeat split; [constructor | exact H].
  - apply orb_true_iff in H. destruct H as [H|H].
    + apply body_sound in H. destruct H as (a & b & -> & Ha & H).
      apply andb_true_iff in H. destruct H as [_ H].
      apply IH in H. destruct H as (c & d & -> & Hc & H).
      exists (a ++ c)%string, d. rewrite string_app_assoc.
      split; [reflexivity|]. split; [constructor; assumption|].
      rewrite string_length_append, Nat.add_assoc. exact H.
    + exists ""%string, s. simpl. rewrite Nat.add_0_r.
      repeat split; [constructor | exact H].
Qed.

Lemma loop_complete (s1 : string) :
  lang (Star body) s1 ->
  forall fuel pos s2,
    String.length (s1 ++ s2) <= fuel ->
    k (pos + String.length s1) s2 = true ->
    loop fuel pos (s1 ++ s2)%string = true.
Proof.
  intros Hl. remember (Star body) as r eqn:Er.
  induction Hl as [| | | | | | | | r0 | r0 a b Ha _ Hb IHb]; try discriminate.
  - intros fuel pos s2 _ Hk. simpl in *. rewrite Nat.add_0_r in Hk.
    destruct fuel; simpl; [exact Hk | rewrite Hk; apply orb_true_r].
  - injection Er as ->. specialize (IHb eq_refl).
    intros fuel pos s2 Hlen Hk. destruct a as [|a0 a].
    + simpl in *. apply IHb; assumption.
    + destruct fuel as [|fuel]; [simpl in Hlen; lia|].
      cbn [loop]. apply orb_true_iff. left.
      rewrite string_app_assoc. apply body_complete; [exact Ha|].
      apply andb_true_iff. split.
      * apply Nat.ltb_lt. rewrite !string_length_append. simpl. lia.
      * apply IHb.
        -- rewrite string_app_assoc, !string_length_append in Hlen.
           rewrite string_length_append. simpl in Hlen. lia.
        -- rewrite string_length_append, Nat.add_assoc in Hk. exact Hk.
Qed.

End StarLoop.

(** The matcher and the language agree on patterns without anchors:
    [run] succeeds exactly when some prefix of the subject is in the
    language and the continuation accepts the rest. *)
Lemma run_lang (r : regex) :
  anchor_free r = true ->
  (forall pos s k,
      run r pos s k = true ->
      exists s1 s2, s = (s1 ++ s2)%string /\ lang r s1 /\
                    k (pos + String.length s1) s2 = true) /\
  (forall pos s1 s2 k,
      lang r s1 -> k (pos + String.length s1) s2 = true ->
      run r pos (s1 ++ s2)%string k = true).
Proof.
  induction r as [| |c| |cs|r1 IH1 r2 IH2|r1 IH1 r2 IH2|r1 IH1|r1 IH1];
    simpl; intros Haf; try discriminate.
  - (* Chr *)
    split.
    + intros pos [|a s] k H; [discriminate|].
      apply andb_true_iff in H. destruct H as [Hc Hk].
      exists (String a ""), s. simpl. rewrite Nat.add_1_r.
      repeat split; [constructor; exact Hc | exact Hk].
    + intros pos s1 s2 k Hl Hk. inversion Hl; subst. simpl in *.
      rewrite Nat.add_1_r in Hk. rewrite Hk, H0. reflexivity.
  - (* Dot *)
    split.
    + intros pos [|a s] k H; [discriminate|].
      apply andb_true_iff in H. destruct H as [Hc Hk].
      exists (String a ""), s. simpl. rewrite Nat.add_1_r.
      repeat split; [|exact Hk]. constructor. intros ->.
      rewrite Ascii.eqb_refl in Hc. discriminate.
    + intros pos s1 s2 k Hl Hk. inversion Hl; subst. simpl in *.
      rewrite Nat.add_1_r in Hk. rewrite Hk.
      destruct (Ascii.eqb_spec a newline); [contradiction | reflexivity].
  - (* Class *)
    split.
    + intros pos [|a s] k H; [discriminate|].
      apply andb_true_iff in H. destruct H as [Hc Hk].
      apply existsb_exists in Hc. destruct Hc as (c & Hin & Hc).
      exists (String a ""), s. simpl. rewrite Nat.add_1_r.
      repeat split; [econstructor; eassumption | exact Hk].
    + intros pos s1 s2 k Hl Hk. inversion Hl; subst. simpl in *.
      rewrite Nat.add_1_r in Hk. rewrite Hk, andb_true_r.
      apply existsb_exists. eauto.
  - (* Seq *)
    apply andb_true_iff in Haf. destruct Haf as [Ha1 Ha2].
    destruct (IH1 Ha1) as [S1 C1]. destruct (IH2 Ha2) as [S2 C2]. split.
    + intros pos s k H. apply S1 in H. destruct H as (a & b & -> & Hla & H).
      apply S2 in H. destruct H as (c & d & -> & Hlc & H).
      exists (a ++ c)%string, d. rewrite string_app_assoc.
      split; [reflexivity|]. split; [constructor; assumption|].
      rewrite string_length_append, Nat.add_assoc. exact H.
    + intros pos s1 s2 k Hl Hk. inversion Hl; subst.
      rewrite string_app_assoc. apply C1; [assumption|].
      apply C2; [assumption|].
      rewrite string_length_append, Nat.add_assoc in Hk. exact Hk.
  - (* Alt *)
    apply andb_true_iff in Haf. destruct Haf as [Ha1 Ha2].
    destruct (IH1 Ha1) as [S1 C1]. destruct (IH2 Ha2) as [S2 C2]. split.
    + intros pos s k H. apply orb_true_iff in H. destruct H as [H|H].
      * apply S1 in H. destruct H as (a & b & -> & Hl & H).
        exists a, b. repeat split; [apply lang_alt_l; exact Hl | exact H].
      * apply S2 in H. destruct H as (a & b & -> & Hl & H).
        exists a, b. repeat split; [apply lang_alt_r; exact Hl | exact H].
    + intros pos s1 s2 k Hl Hk. apply orb_true_iff. inversion Hl; subst.
      * left. apply C1; assumption.
      * right. apply C2; assumption.
  - (* Opt *)
    destruct (IH1 Haf) as [S1 C1]. split.
    + intros pos s k H. apply orb_true_iff in H. destruct H as [H|H].
      * apply S1 in H. destruct H as (a & b & -> & Hl & H).
        exists a, b. repeat split; [apply lang_opt_some; exact Hl | exact H].
      * exists ""%string, s. simpl. rewrite Nat.add_0_r.
        repeat split; [constructor | exact H].
    + intros pos s1 s2 k Hl Hk. apply orb_true_iff. inversion Hl; subst.
      * right. simpl in *. rewrite Nat.add_0_r in Hk. exact Hk.
      * left. apply C1; assumption.
  - (* Star *)
    destruct (IH1 Haf) as [S1 C1]. split.
    + intros pos s k H. exact (loop_sound r1 k S1 _ pos s H).
    + intros pos s1 s2 k Hl Hk.
      exact (loop_complete r1 k C1 s1 Hl _ pos s2 (Nat.le_refl _) Hk).
Qed.

(** [re.fullmatch] on an anchored pattern is membership in the language of
    its body. *)
Lemma fullmatch_anchored (body : regex) (s : string) :
  anchor_free body = true ->
  (re_fullmatch (Seq Bol (Seq body Eol)) s = true <-> lang body s).
Proof.
  intros Haf. destruct (run_lang body Haf) as [Snd Cmp].
  unfold re_fullmatch. simpl. split.
  - intros H. apply Snd in H. destruct H as (a & b & -> & Hl & H).
    apply andb_true_iff in H. destruct H as [_ H].
    destruct b; [|discriminate]. rewrite string_app_nil_r. exact Hl.
  - intros Hl. rewrite <- (string_app_nil_r s). apply Cmp; [exact Hl|].
    reflexivity.
Qed.

(** [re.match] on an anchored pattern accepts the language of its body,
    and also each of its strings followed by one newline. *)
Lemma match_anchored (body : regex) (s : string) :
  anchor_free body = true ->
  (re_match (Seq Bol (Seq body Eol)) s = true <->
   lang body s \/ exists s', s = (s' ++ String newline "")%string /\ lang body s').
Proof.
  intros Haf. destruct (run_lang body Haf) as [Snd Cmp].
  unfold re_match. simpl. split.
  - intros H. apply Snd in H. destruct H as (a & b & -> & Hl & H).
    apply andb_true_iff in H. destruct H as [H _].
    destruct b as [|c [|d b]]; simpl in H; try discriminate.
    + left. rewrite string_app_nil_r. exact Hl.
    + right. apply Ascii.eqb_eq in H. subst c. eauto.
  - intros [Hl|(s' & -> & Hl)].
    + rewrite <- (string_app_nil_r s). apply Cmp; [exact Hl | reflexivity].
    + apply Cmp; [exact Hl|]. reflexivity.
Qed.

Lemma table_patterns_anchored :
  forallb (fun t => forallb is_anchored (snd t)) build_systems = true.
Proof. reflexivity. Qed.

(** X1.  For every pattern of the table and every name: [re.match]
    accepts the name exactly when the name as a whole matches the pattern,
    or the name is such a name followed by one newline. *)
Theorem table_pattern_match_iff
        (sys : string) (patterns : list regex) (pattern : regex)
        (nm : string) :
  In (sys, patterns) build_systems -> In pattern patterns ->
  (re_match pattern nm = true <->
   re_fullmatch pattern nm = true \/
   exists nm', nm = (nm' ++ String newline "")%string /\
               re_fullmatch pattern nm' = true).
Proof.
  intros Ht Hp.
  pose proof table_patterns_anchored as Hall.
  rewrite forallb_forall in Hall. specialize (Hall _ Ht). simpl in Hall.
  rewrite forallb_forall in Hall. specialize (Hall _ Hp).
  destruct pattern as [| | | | |r1 r2| | |]; try discriminate.
  destruct r1; try discriminate.
  destruct r2 as [| | | | |body r3| | |]; try discriminate.
  destruct r3; try discriminate.
  simpl in Hall. rewrite (match_anchored body nm Hall).
  rewrite (fullmatch_anchored body nm Hall). split.
  - intros [H|(nm' & -> & H)]; [left; exact H|].
    right. exists nm'. split; [reflexivity|].
    apply fullmatch_anchored; assumption.
  - intros [H|(nm' & -> & H)]; [left; exact H|].
    right. exists nm'. split; [reflexivity|].
    apply fullmatch_anchored in H; assumption.
Qed.

Lemma table_pattern_match_iff_witness :
  In ("Maven", [anchored [lit "pom.xml"]]) build_systems /\
  In (anchored [lit "pom.xml"]) [anchored [lit "pom.xml"]] /\
  (re_match (anchored [lit "pom.xml"]) "POM.xml" = true <->
   re_fullmatch (anchored [lit "pom.xml"]) "POM.xml" = true \/
   exists nm', "POM.xml" = (nm' ++ String newline "")%string /\
               re_fullmatch (anchored [lit "pom.xml"]) nm' = true).
Proof.
  assert (H1 : In ("Maven", [anchored [lit "pom.xml"]]) build_systems)
    by (left; reflexivity).
  assert (H2 : In (anchored [lit "pom.xml"]) [anchored [lit "pom.xml"]])
    by (left; reflexivity).
  split; [exact H1|]. split; [exact H2|].
  exact (table_pattern_match_iff "Maven" _ _ "POM.xml" H1 H2).
Defined.

Lemma table_pattern_shape
      (sys : string) (patterns : list regex) (pattern : regex) :
  In (sys, patterns) build_systems -> In pattern patterns ->
  exists body, pattern = Seq Bol (Seq body Eol) /\ anchor_free body = true.
Proof.
  intros Ht Hp.
  pose proof table_patterns_anchored as Hall.
  rewrite forallb_forall in Hall. specialize (Hall _ Ht). simpl in Hall.
  rewrite forallb_forall in Hall. specialize (Hall _ Hp).
  destruct pattern as [| | | | |r1 r2| | |]; try discriminate.
  destruct r1; try discriminate.
  destruct r2 as [| | | | |body r3| | |]; try discriminate.
  destruct r3; try discriminate.
  exists body. split; [reflexivity | exact Hall].
Qed.

Lemma no_newline_app (s t : string) :
  no_newline (s ++ t) = no_newline s && no_newline t.
Proof.
  induction s as [|a s IH]; simpl; [reflexivity|].
  rewrite IH, andb_assoc. reflexivity.
Qed.

(** X2.  On a name without a newline, [re.match] with a pattern of the
    table decides whether the name as a whole matches the pattern. *)
Theorem table_pattern_whole_name
        (sys : string) (patterns : list regex) (pattern : regex)
        (nm : string) :
  In (sys, patterns) build_systems -> In pattern patterns ->
  no_newline nm = true ->
  re_match pattern nm = re_fullmatch pattern nm.
Proof.
  intros Ht Hp Hnl.
  destruct (table_pattern_shape sys patterns pattern Ht Hp)
    as (body & -> & Haf).
  pose proof (match_anchored body nm Haf) as Hm.
  pose proof (fullmatch_anchored body nm Haf) as Hf.
  destruct (re_match (Seq Bol (Seq body Eol)) nm) eqn:Em,
           (re_fullmatch (Seq Bol (Seq body Eol)) nm) eqn:Ef;
    try reflexivity.
  - destruct (proj1 Hm eq_refl) as [Hl|(nm' & -> & _)].
    + apply Hf in Hl. discriminate.
    + rewrite no_newline_app in Hnl. simpl in Hnl.
      rewrite andb_false_r in Hnl. discriminate.
  - assert (Hcontra : false = true); [|discriminate].
    apply Hm. left. apply Hf. reflexivity.
Qed.

Lemma table_pattern_whole_name_witness :
  In ("Make", [anchored [Class ["M"%char; "m"%char]; lit "akefile"]])
     build_systems /\
  In (anchored [Class ["M"%char; "m"%char]; lit "akefile"])
     [anchored [Class ["M"%char; "m"%char]; lit "akefile"]] /\
  no_newline "GNUmakefile" = true /\
  re_match (anchored [Class ["M"%char; "m"%char]; lit "akefile"]) "GNUmakefile"
  = re_fullmatch (anchored [Class ["M"%char; "m"%char]; lit "akefile"])
                 "GNUmakefile".
Proof.
  assert (H1 : In ("Make",
                   [anchored [Class ["M"%char; "m"%char]; lit "akefile"]])
                  build_systems)
    by (simpl; do 7 right; left; reflexivity).
  assert (H2 : In (anchored [Class ["M"%char; "m"%char]; lit "akefile"])
                  [anchored [Class ["M"%char; "m"%char]; lit "akefile"]])
    by (left; reflexivity).
  split; [exact H1|]. split; [exact H2|]. split; [reflexivity|].
  exact (table_pattern_whole_name "Make" _ _ "GNUmakefile" H1 H2 eq_refl).
Defined.

(** *** Letter case *)

Lemma lower_idempotent (a : ascii) : lower (lower a) = lower a.
Proof. destruct a as [[] [] [] [] [] [] [] []]; reflexivity. Qed.

Lemma lower_newline (a : ascii) :
  Ascii.eqb (lower a) newline = Ascii.eqb a newline.
Proof. destruct a as [[] [] [] [] [] [] [] []]; reflexivity. Qed.

Lemma eq_ci_lower (c a : ascii) : eq_ci c (lower a) = eq_ci c a.
Proof. unfold eq_ci. rewrite lower_idempotent. reflexivity. Qed.

Lemma length_lower_string (s : string) :
  String.length (lower_string s) = String.length s.
Proof. induction s as [|a s IH]; simpl; [reflexivity | rewrite IH; reflexivity]. Qed.

Lemma at_end_lower (s : string) : at_end (lower_string s) = at_end s.
Proof.
  destruct s as [|a [|b s]]; simpl; try reflexivity. apply lower_newline.
Qed.

Lemma run_lower (r : regex) :
  forall pos s k k',
    (forall p t, k p t = k' p (lower_string t)) ->
    run r pos s k = run r pos (lower_string s) k'.
Proof.
  induction r as [| |c| |cs|r1 IH1 r2 IH2|r1 IH1 r2 IH2|r1 IH1|r1 IH1];
    intros pos s k k' Hk; simpl.
  - rewrite Hk. reflexivity.
  - rewrite at_end_lower, Hk. reflexivity.
  - destruct s as [|a s]; simpl; [reflexivity|].
    rewrite eq_ci_lower, Hk. reflexivity.
  - destruct s as [|a s]; simpl; [reflexivity|].
    rewrite lower_newline, Hk. reflexivity.
  - destruct s as [|a s]; simpl; [reflexivity|].
    rewrite Hk. f_equal.
    induction cs as [|c cs IHcs]; simpl; [reflexivity|].
    rewrite eq_ci_lower, IHcs. reflexivity.
  - apply IH1. intros p t. apply IH2. exact Hk.
  - rewrite (IH1 pos s k k' Hk), (IH2 pos s k k' Hk). reflexivity.
  - rewrite (IH1 pos s k k' Hk), Hk. reflexivity.
  - rewrite length_lower_string. generalize (String.length s) as fuel.
    intros fuel. revert pos s. induction fuel as [|fuel IHf]; intros pos s.
    + apply Hk.
    + rewrite Hk. f_equal. apply IH1. intros p t.
      rewrite !length_lower_string, IHf. reflexivity.
Qed.

(** X3.  Names that differ only in the case of their letters are matched
    alike, by every pattern. *)
Theorem match_ignores_case (r : regex) (s t : string) :
  lower_string s = lower_string t ->
  re_match r s = re_match r t.
Proof.
  intros H. unfold re_match.
  rewrite (run_lower r 0 s (fun _ _ => true) (fun _ _ => true))
    by reflexivity.
  rewrite (run_lower r 0 t (fun _ _ => true) (fun _ _ => true))
    by reflexivity.
  rewrite H. reflexivity.
Qed.

Lemma match_ignores_case_witness :
  lower_string "CMAKELISTS.TXT" = lower_string "CMakeLists.txt" /\
  re_match (anchored [lit "CMakeLists.txt"]) "CMAKELISTS.TXT"
  = re_match (anchored [lit "CMakeLists.txt"]) "CMakeLists.txt".
Proof.
  split; [reflexivity|].
  exact (match_ignores_case _ "CMAKELISTS.TXT" "CMakeLists.txt" eq_refl).
Defined.

(** *** Invariants of the result of a scan *)

Lemma NoDup_map_filter {A B : Type} (g : A -> B) (f : A -> bool) (l : list A) :
  NoDup (map g l) -> NoDup (map g (filter f l)).
Proof.
  induction l as [|a l IH]; simpl; intros Hnd; [constructor|].
  inversion Hnd as [|? ? Hnot Hnd']; subst.
  destruct (f a); simpl; [|auto].
  constructor; [|auto]. intros Hin. apply Hnot.
  apply in_map_iff in Hin. destruct Hin as (x & <- & Hx).
  apply filter_In in Hx. apply in_map. tauto.
Qed.

(** X4.  No build system is reported twice, every reported system is one
    of the table, and every reported system comes with at least one
    file. *)
Theorem result_is_well_formed
        (directory : path) (cwd : node) (found : list detected) :
  detect_build_system directory cwd = Ok found ->
  NoDup (map system found) /\
  forall d, In d found ->
            In (system d) (map fst build_systems) /\ found_files d <> [].
Proof.
  intros Hd. apply detect_build_system_ok in Hd.
  destruct Hd as (all_files & _ & ->). split.
  - rewrite classify_systems. apply NoDup_map_filter.
    exact build_systems_unique.
  - intros d Hin. apply classify_in in Hin.
    destruct Hin as (patterns & Ht & Hm). split.
    + apply (in_map fst) in Ht. exact Ht.
    + apply first_match_some in Hm.
      destruct Hm as (_ & _ & _ & _ & _ & _ & Hne). exact Hne.
Qed.

Lemma result_is_well_formed_witness :
  detect_build_system [] Examples.broken_manifest
  = Ok [{| system := "npm"; found_files := [["package.json"]] |};
        {| system := "Go Modules"; found_files := [["go.mod"]] |}] /\
  NoDup (map system
             [{| system := "npm"; found_files := [["package.json"]] |};
              {| system := "Go Modules"; found_files := [["go.mod"]] |}]) /\
  forall d,
    In d [{| system := "npm"; found_files := [["package.json"]] |};
          {| system := "Go Modules"; found_files := [["go.mod"]] |}] ->
    In (system d) (map fst build_systems) /\ found_files d <> [].
Proof.
  assert (H : detect_build_system [] Examples.broken_manifest
              = Ok [{| system := "npm"; found_files := [["package.json"]] |};
                    {| system := "Go Modules";
                       found_files := [["go.mod"]] |}])
    by reflexivity.
  split; [exact H|].
  exact (result_is_well_formed [] Examples.broken_manifest _ H).
Defined.

Lemma detects_true (patterns : list regex) (all_files : list path) :
  detects patterns all_files = true <->
  exists p file, In p patterns /\ In file all_files /\
                 re_match p (name file) = true.
Proof.
  unfold detects.
  destruct (first_match patterns all_files) as [m|] eqn:E.
  - split; [|reflexivity]. intros _. apply first_match_some in E.
    destruct E as (before & p & after & -> & _ & Hm & Hne).
    destruct m as [|file m]; [contradiction|].
    assert (Hin : In file (matches_of p all_files))
      by (rewrite Hm; left; reflexivity).
    unfold matches_of in Hin. apply filter_In in Hin.
    exists p, file. repeat split; try tauto.
    apply in_or_app. right. left. reflexivity.
  - split; [discriminate|]. intros (p & file & Hp & Hf & Hre).
    rewrite first_match_none in E. specialize (E p Hp).
    rewrite matches_of_nil in E. rewrite (E file Hf) in Hre. discriminate.
Qed.

Lemma classify_system_in (table : list (string * list regex))
      (all_files : list path) (sys : string) :
  In sys (map system (classify table all_files)) <->
  exists patterns, In (sys, patterns) table /\ detects patterns all_files = true.
Proof.
  rewrite classify_systems, in_map_iff. split.
  - intros ([s ps] & <- & Hin). apply filter_In in Hin. simpl in *.
    exists ps. exact Hin.
  - intros (ps & Hin & Hd). exists (sys, ps). split; [reflexivity|].
    apply filter_In. split; assumption.
Qed.

(** X5.  Detection depends on the names of the collected files only, and
    more names never detect less: when every name collected in one scan
    is also collected in another, every system reported by the first scan
    is reported by the second. *)
Theorem detection_is_monotone
        (directory directory' : path) (cwd cwd' : node)
        (all_files all_files' : list path) (found found' : list detected) :
  collect_files directory cwd = Ok all_files ->
  collect_files directory' cwd' = Ok all_files' ->
  (forall file, In file all_files ->
                exists file', In file' all_files' /\ name file' = name file) ->
  detect_build_system directory cwd = Ok found ->
  detect_build_system directory' cwd' = Ok found' ->
  forall sys, In sys (map system found) -> In sys (map system found').
Proof.
  intros Hc Hc' Hsub Hd Hd' sys Hin.
  apply detect_build_system_ok in Hd. destruct Hd as (fs & Hfs & ->).
  apply detect_build_system_ok in Hd'. destruct Hd' as (fs' & Hfs' & ->).
  rewrite Hc in Hfs. apply ok_inj in Hfs. subst fs.
  rewrite Hc' in Hfs'. apply ok_inj in Hfs'. subst fs'.
  apply classify_system_in in Hin. destruct Hin as (ps & Ht & Hdet).
  apply classify_system_in. exists ps. split; [exact Ht|].
  apply detects_true in Hdet. destruct Hdet as (p & file & Hp & Hf & Hre).
  destruct (Hsub file Hf) as (file' & Hf' & Hname).
  apply detects_true. exists p, file'. rewrite Hname. auto.
Qed.

Lemma detection_is_monotone_witness :
  collect_files [] Examples.cargo_only = Ok [["Cargo.toml"]] /\
  collect_files ["sub"] (Dir true [("sub", Dir true [("Cargo.toml", Examples.plain);
                                                     ("go.mod", Examples.plain)])])
  = Ok [["sub"; "Cargo.toml"]; ["sub"; "go.mod"]] /\
  forall sys,
    In sys (map system
                [{| system := "Cargo (Rust)";
                    found_files := [["Cargo.toml"]] |}]) ->
    In sys (map system
                [{| system := "Cargo (Rust)";
                    found_files := [["sub"; "Cargo.toml"]] |};
                 {| system := "Go Modules";
                    found_files := [["sub"; "go.mod"]] |}]).
Proof.
  split; [reflexivity|]. split; [reflexivity|].
  apply (detection_is_monotone [] ["sub"] Examples.cargo_only
           (Dir true [("sub", Dir true [("Cargo.toml", Examples.plain);
                                        ("go.mod", Examples.plain)])])
           [["Cargo.toml"]] [["sub"; "Cargo.toml"]; ["sub"; "go.mod"]]).
  - reflexivity.
  - reflexivity.
  - intros file [<-|[]]. exists ["sub"; "Cargo.toml"]. split.
    + left. reflexivity.
    + reflexivity.
  - reflexivity.
  - reflexivity.
Defined.

(** X6.  In every element of the result the files of the scanned directory
    itself come first and the files of its subdirectories after them. *)
Theorem directory_files_come_first
        (directory : path) (cwd : node) (found : list detected)
        (d : detected) :
  detect_build_system directory cwd = Ok found -> In d found ->
  exists top below,
    found_files d = top ++ below /\
    Forall (fun f => List.length f = List.length directory + 1) top /\
    Forall (fun f => List.length f = List.length directory + 2) below.
Proof.
  intros Hd Hin. apply detect_build_system_ok in Hd.
  destruct Hd as (all_files & Hc & ->).
  apply classify_in in Hin. destruct Hin as (patterns & _ & Hm).
  apply first_match_some in Hm.
  destruct Hm as (_ & p & _ & _ & _ & Hm & _). rewrite <- Hm.
  apply collect_files_ok in Hc. destruct Hc as (es & _ & _ & ->).
  unfold matches_of. rewrite filter_app. eexists _, _.
  split; [reflexivity|]. split; apply Forall_forall; intros f Hf;
    apply filter_In in Hf; destruct Hf as [Hf _].
  - apply in_regular_files in Hf. destruct Hf as (nm & r & c & _ & ->).
    rewrite length_app. reflexivity.
  - apply in_files_below in Hf.
    destruct Hf as (sub & ses & nm & r & c & _ & _ & ->).
    rewrite length_app. reflexivity.
Qed.

Lemma directory_files_come_first_witness :
  detect_build_system []
    (Dir true [("sub", Dir true [("pom.xml", Examples.plain)]);
               ("pom.xml", Examples.plain)])
  = Ok [{| system := "Maven";
           found_files := [["pom.xml"]; ["sub"; "pom.xml"]] |}] /\
  exists top below,
    [["pom.xml"]; ["sub"; "pom.xml"]] = top ++ below /\
    Forall (fun f => List.length f = List.length (@nil string) + 1) top /\
    Forall (fun f => List.length f = List.length (@nil string) + 2) below.
Proof.
  assert (H : detect_build_system []
                (Dir true [("sub", Dir true [("pom.xml", Examples.plain)]);
                           ("pom.xml", Examples.plain)])
              = Ok [{| system := "Maven";
                       found_files := [["pom.xml"]; ["sub"; "pom.xml"]] |}])
    by reflexivity.
  split; [exact H|].
  apply (directory_files_come_first [] _ _
           {| system := "Maven";
              found_files := [["pom.xml"]; ["sub"; "pom.xml"]] |} H).
  left. reflexivity.
Defined.

(** *** The manifest *)

(** What the operating system raises on the way along a path. *)
Lemma resolve_raises (p : path) (cwd : node) (e : exn) :
  resolve cwd p = Raise e ->
  e = FileNotFoundError \/ e = NotADirectoryError \/
  e = PermissionError \/ e = OSError.
Proof.
  revert cwd. induction p as [|part p IH]; intros cwd H; [discriminate|].
  cbn [resolve] in H. destruct cwd as [r c|l es|o o'| |why].
  - injection H as <-. auto.
  - destruct (assoc part es) as [n|]; [exact (IH n H)|].
    injection H as <-. auto.
  - injection H as <-. auto.
  - injection H as <-. auto.
  - injection H as <-. destruct why; auto.
Qed.

Lemma open_load_no_attribute_error (n : node) :
  open_load n <> Raise AttributeError.
Proof.
  destruct n as [[|] c|l es|[why|c] o'| |why]; try discriminate;
    try (destruct why; discriminate); destruct c; discriminate.
Qed.

Lemma manifest_info_shape (loaded : result json) (info : package_info) :
  manifest_info loaded = Ok info ->
  info = [] \/
  exists nm version ks,
    info = [("name", nm); ("version", version);
            ("dependencies", JArr (map JStr ks))].
Proof.
  destruct loaded as [[]|[]]; try discriminate; intros H.
  - unfold manifest_info in H.
    destruct (member "dependencies" members (JObj [])); try discriminate.
    apply ok_inj in H. right. eexists _, _, _. symmetry. exact H.
  - apply ok_inj in H. left. symmetry. exact H.
Qed.

(** X9.  What [detect_package_type] returns is either the empty [dict] or
    a [dict] with exactly the keys [name], [version] and [dependencies],
    in this order, whose [dependencies] is a list of strings; no manifest
    yields a [dict] with only some of the keys. *)
Theorem package_info_shape
        (directory : path) (cwd : node) (info : package_info) :
  detect_package_type directory cwd = Ok info ->
  info = [] \/
  exists nm version ks,
    info = [("name", nm); ("version", version);
            ("dependencies", JArr (map JStr ks))].
Proof.
  rewrite detect_package_type_cases. intros H.
  destruct (resolve cwd (directory ++ ["package.json"])) as [n|e].
  - destruct n as [r c|l es|o o'| |why];
      try exact (manifest_info_shape _ info H).
    + apply ok_inj in H. left. symmetry. exact H.
    + discriminate.
  - destruct e; try discriminate; apply ok_inj in H; left; symmetry; exact H.
Qed.

Lemma package_info_shape_witness :
  detect_package_type [] Examples.broken_manifest = Ok [] /\
  (@nil (string * json) = [] \/
   exists nm version ks,
     [] = [("name", nm); ("version", version);
           ("dependencies", JArr (map JStr ks))]).
Proof.
  split; [reflexivity|].
  exact (package_info_shape [] Examples.broken_manifest [] eq_refl).
Defined.

(** X10.  [JSONDecodeError] never leaves [detect_package_type], whatever
    [package.json] is.  It is the only exception that is held back: when
    [package.json] of the working directory exists, every other exception
    that opening and loading it raises leaves the function as it is. *)
Theorem only_decode_errors_are_handled (directory : path) (cwd : node) :
  raises_JSONDecodeError (detect_package_type directory cwd) = false /\
  (directory = [] ->
   forall n e,
     resolve cwd ["package.json"] = Ok n ->
     exists_ cwd ["package.json"] = Ok true ->
     open_load n = Raise e -> e <> JSONDecodeError ->
     detect_package_type [] cwd = Raise e).
Proof.
  split.
  - rewrite detect_package_type_cases.
    destruct (resolve cwd (directory ++ ["package.json"])) as [n|e] eqn:Hr.
    + destruct n as [[|] c|l es|[why|c] o'| |why]; try reflexivity;
        try (destruct why; reflexivity);
        destruct c as [| | | |v]; try reflexivity;
        destruct v; try reflexivity;
        cbn [open_load load manifest_info];
        destruct (member "dependencies" members (JObj [])); reflexivity.
    + destruct (resolve_raises _ _ _ Hr) as [-> | [-> | [-> | ->]]]; reflexivity.
  - intros -> n e Hr Hex Hopen Hne. rewrite detect_package_type_cases.
    cbn [app]. unfold exists_ in Hex. rewrite Hr in *.
    destruct n as [r c|l es|o o'| |why]; try discriminate;
      rewrite Hopen; destruct e; try reflexivity; contradiction.
Qed.

Lemma only_decode_errors_are_handled_witness :
  raises_JSONDecodeError (detect_package_type [] Examples.undecodable_manifest)
  = false /\
  detect_package_type [] Examples.undecodable_manifest
  = Raise UnicodeDecodeError.
Proof.
  destruct (only_decode_errors_are_handled [] Examples.undecodable_manifest)
    as [H1 H2].
  split; [exact H1|].
  apply (H2 eq_refl (File true Undecodable) UnicodeDecodeError);
    try reflexivity.
  discriminate.
Defined.

(** X11.  For the working directory, [detect_package_type] raises
    [AttributeError] exactly when [package.json] is opened and loaded as
    a JSON document that is not an object, or as an object whose
    [dependencies] member is present and not an object. *)
Theorem attribute_error_iff (cwd : node) :
  detect_package_type [] cwd = Raise AttributeError <->
  exists n v,
    resolve cwd ["package.json"] = Ok n /\ open_load n = Ok v /\
    (is_object v = false \/
     exists members d,
       v = JObj members /\ assoc "dependencies" members = Some d /\
       is_object d = false).
Proof.
  rewrite detect_package_type_cases. cbn [app].
  assert (Hinfo : forall loaded,
            loaded <> Raise AttributeError ->
            manifest_info loaded = Raise AttributeError <->
            exists v, loaded = Ok v /\
              (is_object v = false \/
               exists members d,
                 v = JObj members /\
                 assoc "dependencies" members = Some d /\
                 is_object d = false)).
  { intros [v|e] Hno; split.
    - intros H. exists v. split; [reflexivity|].
      destruct v; try (left; reflexivity). right.
      unfold manifest_info, member in H.
      destruct (assoc "dependencies" members) as [d|] eqn:E;
        [|discriminate].
      exists members, d. split; [reflexivity|]. split; [exact E|].
      destruct d; try reflexivity. discriminate H.
    - intros (v' & Hv & H). apply ok_inj in Hv. subst v'.
      destruct H as [Ho|(members & d & -> & Hd & Ho)].
      + destruct v; try reflexivity. discriminate Ho.
      + unfold manifest_info, member. rewrite Hd.
        destruct d; try reflexivity. discriminate Ho.
    - destruct e; try discriminate. contradiction.
    - intros (v & Hv & _). discriminate. }
  destruct (resolve cwd ["package.json"]) as [n|e] eqn:Hr.
  - destruct n as [r c|l es|o o'| |why];
      try (rewrite Hinfo by apply open_load_no_attribute_error; split;
           [intros (v & Hv & H); eexists _, v;
            (split; [reflexivity|]); split; [exact Hv | exact H]
           |intros (n' & v & Hn & Hv & H); apply ok_inj in Hn; subst n';
            exists v; split; [exact Hv | exact H]]).
    + split; [discriminate|].
      intros (n' & v & Hn & Hv & _). apply ok_inj in Hn. subst n'.
      discriminate.
    + split; [destruct why; discriminate|].
      intros (n' & v & Hn & Hv & _). apply ok_inj in Hn. subst n'.
      discriminate.
  - split; [|intros (n & v & Hn & _); discriminate].
    destruct (resolve_raises _ _ _ Hr) as [-> | [-> | [-> | ->]]]; discriminate.
Qed.

(** X12.  A manifest object without the members [name], [version] and
    [dependencies] is reported with the name and the version ["Unknown"]
    and no dependencies; it is not the empty [dict]. *)
Theorem manifest_defaults
        (directory : path) (cwd : node) (members : list (string * json)) :
  resolve cwd (directory ++ ["package.json"])
  = Ok (File true (Document (JObj members))) ->
  assoc "name" members = None ->
  assoc "version" members = None ->
  assoc "dependencies" members = None ->
  detect_package_type directory cwd
  = Ok [("name", JStr "Unknown"); ("version", JStr "Unknown");
        ("dependencies", JArr [])].
Proof.
  intros Hr Hn Hv Hd. rewrite detect_package_type_cases, Hr.
  cbn [open_load load manifest_info].
  unfold member. rewrite Hn, Hv, Hd. reflexivity.
Qed.

Lemma manifest_defaults_witness :
  detect_package_type ["app"]
    (Dir true [("app", Dir true [("package.json",
                                  File true (Document (JObj [("private", JBool true)])))])])
  = Ok [("name", JStr "Unknown"); ("version", JStr "Unknown");
        ("dependencies", JArr [])].
Proof.
  apply (manifest_defaults ["app"] _ [("private", JBool true)]);
    reflexivity.
Defined.

Lemma regular_file_collected (cwd : node) (all_files : list path)
      (nm : string) (r : bool) (c : contents) :
  collect_files [] cwd = Ok all_files ->
  resolve cwd [nm] = Ok (File r c) ->
  exists file, In file all_files /\ name file = nm.
Proof.
  intros Hc Hr.
  destruct (collect_files_in [] cwd all_files Hc) as (entries & Hres & Hiff).
  simpl in Hres. injection Hres as ->. simpl in Hr.
  destruct (assoc nm entries) as [n|] eqn:E; [|discriminate].
  simpl in Hr. injection Hr as ->. apply assoc_in in E.
  exists [nm]. split; [|reflexivity].
  apply Hiff. left. exists nm, r, c. split; [exact E | reflexivity].
Qed.

(** X13.  In a run of [main], package information is found only for a
    directory that the scan reports as npm, or from a [package.json] that
    is not a regular file: when [detect_package_type] returns a non-empty
    [dict] for the working directory, the result of the scan has an
    element for npm, or [package.json] is a pipe or device. *)
Theorem package_info_implies_npm_or_special
        (cwd : node) (found : list detected) (info : package_info) :
  detect_build_system [] cwd = Ok found ->
  detect_package_type [] cwd = Ok info ->
  info <> [] ->
  In "npm" (map system found) \/
  exists opened reopened,
    resolve cwd ["package.json"] = Ok (Special opened reopened).
Proof.
  intros Hd Hp Hne. rewrite detect_package_type_cases in Hp.
  cbn [app] in Hp.
  destruct (resolve cwd ["package.json"]) as [n|e] eqn:Hr.
  - destruct n as [r c|l es|o o'| |why].
    + left.
      apply detect_build_system_ok in Hd.
      destruct Hd as (all_files & Hc & ->).
      destruct (regular_file_collected cwd all_files "package.json" r c Hc Hr)
        as (file & Hin & Hname).
      apply classify_system_in. eexists. split.
      * unfold build_systems. right. right. left. reflexivity.
      * apply detects_true. eexists _, file. split; [left; reflexivity|].
        split; [exact Hin|]. rewrite Hname. reflexivity.
    + discriminate.
    + right. eauto.
    + apply ok_inj in Hp. subst info. contradiction.
    + discriminate.
  - destruct e; try discriminate; apply ok_inj in Hp; subst info;
      contradiction.
Qed.

Lemma package_info_implies_npm_or_special_witness :
  In "npm" (map system
                [{| system := "npm"; found_files := [["package.json"]] |}]) \/
  exists opened reopened,
    resolve Examples.npm_project ["package.json"]
    = Ok (Special opened reopened).
Proof.
  apply (package_info_implies_npm_or_special Examples.npm_project
           [{| system := "npm"; found_files := [["package.json"]] |}]
           [("name", JStr "foo"); ("version", JStr "1.0.0");
            ("dependencies",
             JArr (map JStr ["a"; "b"; "c"; "d"; "e"; "f"]))]).
  - reflexivity.
  - reflexivity.
  - discriminate.
Defined.

(** A manifest that is a pipe: its metadata is found although the scan
    does not report npm, and only the first of the two readings of the
    text mode gets it. *)
Example piped_manifest_run :
  detect_build_system [] Examples.piped_manifest
  = Ok [{| system := "Go Modules"; found_files := [["go.mod"]] |}] /\
  detect_package_type [] Examples.piped_manifest
  = Ok [("name", JStr "foo"); ("version", JStr "1.0.0");
        ("dependencies", JArr (map JStr ["a"; "b"; "c"; "d"; "e"; "f"]))] /\
  detect_package_type [] (manifest_read Examples.piped_manifest) = Ok [].
Proof. repeat split. Qed.

(** *** The run as a whole *)

Lemma print_item_length (key : string) (value : json) :
  List.length (print_item key value) <= 7.
Proof.
  destruct value; try (simpl; lia).
  rewrite print_item_list, !length_app, length_map.
  assert (H : List.length (firstn 5 items) <= 5)
    by (rewrite length_firstn; lia).
  destruct (Nat.ltb 5 (List.length items)); cbn [List.length]; lia.
Qed.

(** X15.  In the text mode, a run that found a system calls [print] once
    for the heading, then for every system twice and once more for each
    of its files, and after that at most 22 times for the package
    information, whatever the manifest holds. *)
Theorem text_report_length
        (cwd : node) (found : list detected) (out : list printed) :
  detect_build_system [] cwd = Ok found -> found <> [] ->
  main false cwd = Ok out ->
  exists block,
    out = Line [Lit "Detected build systems:"]
          :: flat_map print_system found ++ block /\
    List.length (flat_map print_system found)
    = list_sum (map (fun d => 2 + List.length (found_files d)) found) /\
    List.length block <= 22.
Proof.
  intros Hd Hne Hm.
  rewrite (main_some_system false cwd found Hd Hne) in Hm.
  apply bind_ok in Hm. destruct Hm as (info & _ & Hm).
  apply bind_ok in Hm. destruct Hm as (info' & Hp & Hm).
  apply ok_inj in Hm. subst out.
  exists (print_package_info info'). split; [reflexivity|]. split.
  - rewrite length_flat_map.
    rewrite (map_ext (fun d => List.length (print_system d))
                     (fun d => 2 + List.length (found_files d))).
    + reflexivity.
    + intros d. unfold print_system. rewrite length_app, length_map.
      reflexivity.
  - rewrite detect_package_type_cases in Hp.
    assert (Hinfo : info' = [] \/
                    exists n v items,
                      info' = [("name", n); ("version", v);
                               ("dependencies", JArr (map JStr items))]).
    { destruct (resolve (manifest_read cwd) ([] ++ ["package.json"]))
        as [n|e].
      - destruct n as [r c|l es|o o'| |why];
          try exact (manifest_info_shape _ info' Hp).
        + apply ok_inj in Hp. left. symmetry. exact Hp.
        + discriminate.
      - destruct e; try discriminate; apply ok_inj in Hp; left; symmetry;
          exact Hp. }
    destruct Hinfo as [->|(n & v & items & ->)].
    + simpl. lia.
    + unfold print_package_info. cbn [flat_map fst snd List.length].
      rewrite !length_app. cbn [List.length].
      pose proof (print_item_length "name" n).
      pose proof (print_item_length "version" v).
      pose proof (print_item_length "dependencies" (JArr (map JStr items))).
      lia.
Qed.

Lemma text_report_length_witness :
  exists out block,
    main false Examples.npm_project = Ok out /\
    out = Line [Lit "Detected build systems:"]
          :: flat_map print_system
               [{| system := "npm"; found_files := [["package.json"]] |}]
             ++ block /\
    List.length (flat_map print_system
                   [{| system := "npm";
                       found_files := [["package.json"]] |}])
    = list_sum (map (fun d => 2 + List.length (found_files d))
                    [{| system := "npm";
                        found_files := [["package.json"]] |}]) /\
    List.length block <= 22.
Proof.
  destruct (text_report_length Examples.npm_project
              [{| system := "npm"; found_files := [["package.json"]] |}]
              _ eq_refl ltac:(discriminate) eq_refl)
    as (block & H).
  eexists _, block. split; [reflexivity | exact H].
Defined.

(** *** What the patterns of the table accept *)

Lemma lower_string_app (s t : string) :
  lower_string (s ++ t) = (lower_string s ++ lower_string t)%string.
Proof.
  induction s as [|a s IH]; simpl; [reflexivity | rewrite IH; reflexivity].
Qed.

Lemma lower_string_split (s a b : string) :
  lower_string s = (a ++ b)%string ->
  exists s1 s2, s = (s1 ++ s2)%string /\
                lower_string s1 = a /\ lower_string s2 = b.
Proof.
  revert s. induction a as [|c a IH]; intros s H.
  - exists ""%string, s. auto.
  - destruct s as [|d s]; [discriminate|].
    cbn [lower_string append] in H. injection H as Hc Hs.
    destruct (IH s Hs) as (s1 & s2 & -> & H1 & H2).
    exists (String d s1), s2. cbn [lower_string append].
    rewrite Hc, H1. auto.
Qed.

Lemma no_newline_lower (s : string) :
  no_newline (lower_string s) = no_newline s.
Proof.
  induction s as [|a s IH]; [reflexivity|].
  cbn [lower_string no_newline]. rewrite lower_newline, IH. reflexivity.
Qed.

Lemma lower_string_line_end (s tail : string) :
  In tail line_end -> lower_string s = tail -> s = tail.
Proof.
  intros [<-|[<-|[]]] H.
  - destruct s; [reflexivity | discriminate].
  - destruct s as [|a [|b s]]; try discriminate.
    cbn [lower_string] in H. injection H as H. f_equal.
    apply Ascii.eqb_eq. rewrite <- lower_newline. apply Ascii.eqb_eq.
    exact H.
Qed.

Lemma line_end_lower (tail : string) :
  In tail line_end -> lower_string tail = tail.
Proof. intros [<-|[<-|[]]]; reflexivity. Qed.

Lemma lang_chr_iff (c : ascii) (s : string) :
  lang (Chr c) s <-> exists a, s = String a "" /\ eq_ci c a = true.
Proof.
  split.
  - intros H. inversion H; subst. eauto.
  - intros (a & -> & H). constructor. exact H.
Qed.

Lemma lang_seq_iff (r1 r2 : regex) (s : string) :
  lang (Seq r1 r2) s <->
  exists s1 s2, s = (s1 ++ s2)%string /\ lang r1 s1 /\ lang r2 s2.
Proof.
  split.
  - intros H. inversion H; subst. eauto.
  - intros (s1 & s2 & -> & H1 & H2). constructor; assumption.
Qed.

Lemma lang_alt_iff (r1 r2 : regex) (s : string) :
  lang (Alt r1 r2) s <-> lang r1 s \/ lang r2 s.
Proof.
  split.
  - intros H. inversion H; subst; auto.
  - intros [H|H]; [apply lang_alt_l | apply lang_alt_r]; exact H.
Qed.

Lemma lang_star_dot (s : string) :
  lang (Star Dot) s <-> no_newline s = true.
Proof.
  split.
  - assert (G : forall r t, lang r t -> r = Star Dot -> no_newline t = true).
    { induction 1; intros Heq; try discriminate.
      - reflexivity.
      - injection Heq as ->. inversion H; subst.
        cbn [append no_newline]. rewrite IHlang2 by reflexivity.
        destruct (Ascii.eqb_spec a newline); [contradiction | reflexivity]. }
    intros H. exact (G _ _ H eq_refl).
  - induction s as [|a s IH]; intros H; [constructor|].
    cbn [no_newline] in H. apply andb_true_iff in H. destruct H as [Ha Hs].
    change (String a s) with (String a "" ++ s)%string.
    constructor; [|exact (IH Hs)]. constructor.
    intros ->. rewrite Ascii.eqb_refl in Ha. discriminate.
Qed.

Lemma accepts_lit (w : string) :
  w <> ""%string -> accepts (lit w) (fun l => l = lower_string w).
Proof.
  unfold accepts. induction w as [|a w IH]; intros Hne s; [contradiction|].
  destruct w as [|b w].
  - cbn [lit lower_string]. rewrite lang_chr_iff. split.
    + intros (c & -> & H). unfold eq_ci in H. apply Ascii.eqb_eq in H.
      cbn [lower_string]. rewrite H. reflexivity.
    + intros H. destruct s as [|c [|d s]]; try discriminate.
      cbn [lower_string] in H. injection H as H. exists c.
      split; [reflexivity|]. unfold eq_ci. rewrite H. apply Ascii.eqb_refl.
  - change (lit (String a (String b w)))
      with (Seq (Chr a) (lit (String b w))).
    rewrite lang_seq_iff. split.
    + intros (s1 & s2 & -> & H1 & H2). apply lang_chr_iff in H1.
      destruct H1 as (c & -> & Hc). apply IH in H2; [|discriminate].
      unfold eq_ci in Hc. apply Ascii.eqb_eq in Hc.
      cbn [append lower_string]. cbn [lower_string] in H2.
      rewrite H2, Hc. reflexivity.
    + intros H. destruct s as [|c s]; [discriminate|].
      cbn [lower_string] in H. injection H as Hc Hs.
      exists (String c ""), s. split; [reflexivity|]. split.
      * constructor. unfold eq_ci. rewrite Hc. apply Ascii.eqb_refl.
      * apply IH; [discriminate|]. exact Hs.
Qed.

Lemma anchor_free_lit (w : string) :
  w <> ""%string -> anchor_free (lit w) = true.
Proof.
  induction w as [|a w IH]; intros Hne; [contradiction|].
  destruct w as [|b w]; [reflexivity|].
  change (lit (String a (String b w)))
    with (Seq (Chr a) (lit (String b w))).
  cbn [anchor_free]. apply IH. discriminate.
Qed.

Lemma accepts_star_dot : accepts (Star Dot) (fun l => no_newline l = true).
Proof.
  intros s. rewrite lang_star_dot, no_newline_lower. reflexivity.
Qed.

Lemma accepts_seq (r1 r2 : regex) (P1 P2 : string -> Prop) :
  accepts r1 P1 -> accepts r2 P2 ->
  accepts (Seq r1 r2)
          (fun l => exists a b, l = (a ++ b)%string /\ P1 a /\ P2 b).
Proof.
  intros H1 H2 s. rewrite lang_seq_iff. split.
  - intros (s1 & s2 & -> & L1 & L2).
    exists (lower_string s1), (lower_string s2).
    rewrite lower_string_app. split; [reflexivity|].
    split; [apply H1 | apply H2]; assumption.
  - intros (a & b & Heq & Pa & Pb).
    destruct (lower_string_split s a b Heq) as (s1 & s2 & -> & <- & <-).
    exists s1, s2. split; [reflexivity|].
    split; [apply H1 | apply H2]; assumption.
Qed.

Lemma accepts_alt (r1 r2 : regex) (P1 P2 : string -> Prop) :
  accepts r1 P1 -> accepts r2 P2 ->
  accepts (Alt r1 r2) (fun l => P1 l \/ P2 l).
Proof.
  intros H1 H2 s. rewrite lang_alt_iff, (H1 s), (H2 s). reflexivity.
Qed.

(** [re.match] with [^ body $], read on the name in lower case. *)
Lemma match_accepts (body : regex) (P : string -> Prop) (nm : string) :
  anchor_free body = true -> accepts body P ->
  (re_match (Seq Bol (Seq body Eol)) nm = true <->
   exists l tail, In tail line_end /\
                  lower_string nm = (l ++ tail)%string /\ P l).
Proof.
  intros Haf Hacc. rewrite (match_anchored body nm Haf). split.
  - intros [H|(s' & -> & H)].
    + exists (lower_string nm), ""%string. split; [left; reflexivity|].
      rewrite string_app_nil_r. split; [reflexivity|]. apply Hacc. exact H.
    + exists (lower_string s'), (String newline "").
      split; [right; left; reflexivity|].
      rewrite lower_string_app. split; [reflexivity|]. apply Hacc. exact H.
  - intros (l & tail & Ht & Heq & Pl).
    destruct (lower_string_split nm l tail Heq) as (s1 & s2 & -> & <- & H2).
    apply (lower_string_line_end s2 tail Ht) in H2. subst s2.
    apply Hacc in Pl.
    destruct Ht as [<-|[<-|[]]].
    + left. rewrite string_app_nil_r. exact Pl.
    + right. eauto.
Qed.

Lemma table_functional (sys : string) (ps ps' : list regex) :
  In (sys, ps) build_systems -> In (sys, ps') build_systems -> ps = ps'.
Proof.
  pose proof build_systems_unique as Hnd. revert Hnd.
  generalize build_systems as table.
  induction table as [|[k v] table IH]; intros Hnd H1 H2; [contradiction|].
  cbn [map fst] in Hnd. inversion Hnd as [|? ? Hnot Hnd']; subst.
  destruct H1 as [H1|H1], H2 as [H2|H2].
  - congruence.
  - injection H1 as -> ->. exfalso. apply Hnot.
    apply (in_map fst) in H2. exact H2.
  - injection H2 as -> ->. exfalso. apply Hnot.
    apply (in_map fst) in H1. exact H1.
  - exact (IH Hnd' H1 H2).
Qed.

(** A system of the table is reported exactly when one of its patterns
    accepts the name of a collected file. *)
Lemma system_detected_iff
      (directory : path) (cwd : node) (all_files : list path)
      (found : list detected) (sys : string) (patterns : list regex) :
  In (sys, patterns) build_systems ->
  collect_files directory cwd = Ok all_files ->
  detect_build_system directory cwd = Ok found ->
  (In sys (map system found) <->
   exists p file, In p patterns /\ In file all_files /\
                  re_match p (name file) = true).
Proof.
  intros Ht Hc Hd.
  apply detect_build_system_ok in Hd. destruct Hd as (fs & Hfs & ->).
  rewrite Hc in Hfs. apply ok_inj in Hfs. subst fs.
  rewrite classify_system_in. split.
  - intros (ps & Ht' & Hdet).
    rewrite (table_functional sys patterns ps Ht Ht').
    apply detects_true. exact Hdet.
  - intros H. exists patterns. split; [exact Ht|].
    apply detects_true. exact H.
Qed.

(** X16.  A system whose patterns are all of the form [^w$] for a literal
    [w] (Maven, Yarn, Poetry, CMake, Ant, sbt, SCons) is reported whenever
    the name of a collected file equals one of its literals up to the case
    of the letters A to Z, or is such a name followed by one newline.
    When the collected names are all ASCII, it is reported in no other
    case.  (Of names that are not ASCII the second half says nothing:
    [re.IGNORECASE] lets [k], [s] and [i] match more than two
    characters.) *)
Theorem literal_system_detected
        (directory : path) (cwd : node) (all_files : list path)
        (found : list detected) (sys : string) (literals : list string) :
  In (sys, map (fun w => anchored [lit w]) literals) build_systems ->
  (forall w, In w literals -> w <> ""%string) ->
  collect_files directory cwd = Ok all_files ->
  detect_build_system directory cwd = Ok found ->
  ((exists file w tail,
       In file all_files /\ In w literals /\ In tail line_end /\
       lower_string (name file) = (lower_string w ++ tail)%string) ->
   In sys (map system found)) /\
  (Forall (fun file => ascii_only (name file) = true) all_files ->
   In sys (map system found) ->
   exists file w tail,
     In file all_files /\ In w literals /\ In tail line_end /\
     lower_string (name file) = (lower_string w ++ tail)%string).
Proof.
  intros Ht Hne Hc Hd.
  pose proof (system_detected_iff directory cwd all_files found sys _
                Ht Hc Hd) as Hsys.
  split.
  - intros (file & w & tail & Hf & Hw & Htail & Heq). apply Hsys.
    exists (anchored [lit w]), file. split; [|split; [exact Hf|]].
    + apply in_map_iff. eauto.
    + apply (match_accepts (lit w) _ (name file)
               (anchor_free_lit w (Hne w Hw)) (accepts_lit w (Hne w Hw))).
      eauto.
  - intros _ Hin. apply Hsys in Hin.
    destruct Hin as (p & file & Hp & Hf & Hm). apply in_map_iff in Hp.
    destruct Hp as (w & <- & Hw).
    apply (match_accepts (lit w) _ (name file)
             (anchor_free_lit w (Hne w Hw)) (accepts_lit w (Hne w Hw))) in Hm.
    destruct Hm as (l & tail & Htail & Heq & ->). eauto 8.
Qed.

Lemma literal_system_detected_witness :
  In "SCons"
     (map system
          [{| system := "SCons"; found_files := [["sconscript"]] |}]) /\
  exists file w tail,
    In file [["sconscript"]] /\ In w ["SConstruct"; "SConscript"] /\
    In tail line_end /\
    lower_string (name file) = (lower_string w ++ tail)%string.
Proof.
  destruct (literal_system_detected []
              (Dir true [("sconscript", Examples.plain)])
              [["sconscript"]]
              [{| system := "SCons"; found_files := [["sconscript"]] |}]
              "SCons" ["SConstruct"; "SConscript"])
    as [Hif Honly].
  - do 15 right. left. reflexivity.
  - intros w [<-|[<-|[]]]; discriminate.
  - reflexivity.
  - reflexivity.
  - split.
    + apply Hif. exists ["sconscript"], "SConscript"%string, ""%string.
      repeat split; try (left; reflexivity). right. left. reflexivity.
    + apply Honly; [|left; reflexivity].
      constructor; [reflexivity | constructor].
Defined.

Lemma lazarus_name (nm : string) :
  re_match
    (anchored [Star Dot; lit "."; alt [lit "lpi"; lit "lpr"; lit "lpk"]]) nm
  = true <->
  exists stem ext tail,
    no_newline stem = true /\ In ext ["lpi"; "lpr"; "lpk"]%string /\
    In tail line_end /\
    lower_string nm = (stem ++ "." ++ ext ++ tail)%string.
Proof.
  assert (Hacc :
    accepts (seq [Star Dot; lit "."; alt [lit "lpi"; lit "lpr"; lit "lpk"]])
      (fun l => exists a b, l = (a ++ b)%string /\ no_newline a = true /\
                exists c d, b = (c ++ d)%string /\ c = lower_string "." /\
                  (d = lower_string "lpi" \/
                   d = lower_string "lpr" \/ d = lower_string "lpk"))).
  { apply accepts_seq; [exact accepts_star_dot|].
    apply accepts_seq; [apply accepts_lit; discriminate|].
    apply accepts_alt; [apply accepts_lit; discriminate|].
    apply accepts_alt; apply accepts_lit; discriminate. }
  unfold anchored.
  pose proof (fun Haf => match_accepts _ _ nm Haf Hacc) as Hm.
  specialize (Hm eq_refl). rewrite Hm. clear Hm Hacc. split.
  - intros (l & tail & Ht & Heq & a & b & -> & Ha & c & d & -> & -> & Hd).
    exists a, d, tail. split; [exact Ha|]. split.
    + destruct Hd as [-> | [-> | ->]]; cbn; auto.
    + split; [exact Ht|]. rewrite Heq, !string_app_assoc. reflexivity.
  - intros (stem & ext & tail & Hs & He & Ht & Heq).
    exists (stem ++ "." ++ ext)%string, tail. split; [exact Ht|]. split.
    + rewrite Heq, !string_app_assoc. reflexivity.
    + exists stem, ("." ++ ext)%string. split; [reflexivity|].
      split; [exact Hs|]. exists "."%string, ext.
      split; [reflexivity|]. split; [reflexivity|].
      destruct He as [<-|[<-|[<-|[]]]]; auto.
Qed.

(** X17.  Lazarus is reported whenever the name of a collected file
    ends, up to the case of the letters A to Z, in [.lpi], [.lpr] or
    [.lpk], with no newline before that ending and at most one newline
    after it; what precedes the ending may be empty.  When the collected
    names are all ASCII, it is reported in no other case. *)
Theorem lazarus_detected
        (directory : path) (cwd : node) (all_files : list path)
        (found : list detected) :
  collect_files directory cwd = Ok all_files ->
  detect_build_system directory cwd = Ok found ->
  ((exists file stem ext tail,
       In file all_files /\
       no_newline stem = true /\ In ext ["lpi"; "lpr"; "lpk"]%string /\
       In tail line_end /\
       lower_string (name file) = (stem ++ "." ++ ext ++ tail)%string) ->
   In "Lazarus" (map system found)) /\
  (Forall (fun file => ascii_only (name file) = true) all_files ->
   In "Lazarus" (map system found) ->
   exists file stem ext tail,
     In file all_files /\
     no_newline stem = true /\ In ext ["lpi"; "lpr"; "lpk"]%string /\
     In tail line_end /\
     lower_string (name file) = (stem ++ "." ++ ext ++ tail)%string).
Proof.
  intros Hc Hd.
  assert (Ht : In ("Lazarus",
                   [anchored [Star Dot; lit ".";
                              alt [lit "lpi"; lit "lpr"; lit "lpk"]]])
                  build_systems)
    by (do 14 right; left; reflexivity).
  pose proof (system_detected_iff directory cwd all_files found "Lazarus" _
                Ht Hc Hd) as Hsys.
  split.
  - intros (file & stem & ext & tail & Hf & H). apply Hsys.
    eexists _, file. split; [left; reflexivity|]. split; [exact Hf|].
    apply lazarus_name. exists stem, ext, tail. exact H.
  - intros _ Hin. apply Hsys in Hin.
    destruct Hin as (p & file & [<-|[]] & Hf & Hm). apply lazarus_name in Hm.
    destruct Hm as (stem & ext & tail & H). exists file, stem, ext, tail.
    tauto.
Qed.

Lemma lazarus_detected_witness :
  In "Lazarus"
     (map system
          [{| system := "Lazarus"; found_files := [["src"; ".LPK"]] |}]) /\
  exists file stem ext tail,
    In file [["src"; ".LPK"]] /\
    no_newline stem = true /\ In ext ["lpi"; "lpr"; "lpk"]%string /\
    In tail line_end /\
    lower_string (name file) = (stem ++ "." ++ ext ++ tail)%string.
Proof.
  destruct (lazarus_detected []
              (Dir true [("src", Dir true [(".LPK", Examples.plain)])])
              [["src"; ".LPK"]]
              [{| system := "Lazarus"; found_files := [["src"; ".LPK"]] |}]
              eq_refl eq_refl)
    as [Hif Honly].
  split.
  - apply Hif. exists ["src"; ".LPK"], ""%string, "lpk"%string, ""%string.
    repeat split; try (left; reflexivity). right. right. left. reflexivity.
  - apply Honly; [|left; reflexivity].
    constructor; [reflexivity | constructor].
Defined.

Lemma requirements_name (nm : string) :
  re_match (anchored [lit "requirements"; Star Dot; lit ".txt"]) nm = true <->
  exists mid tail,
    no_newline mid = true /\ In tail line_end /\
    lower_string nm = ("requirements" ++ mid ++ ".txt" ++ tail)%string.
Proof.
  assert (Hacc :
    accepts (seq [lit "requirements"; Star Dot; lit ".txt"])
      (fun l => exists a b, l = (a ++ b)%string /\
                a = lower_string "requirements" /\
                exists c d, b = (c ++ d)%string /\ no_newline c = true /\
                            d = lower_string ".txt")).
  { apply accepts_seq; [apply accepts_lit; discriminate|].
    apply accepts_seq; [exact accepts_star_dot|].
    apply accepts_lit; discriminate. }
  unfold anchored.
  pose proof (fun Haf => match_accepts _ _ nm Haf Hacc) as Hm.
  specialize (Hm eq_refl). rewrite Hm. clear Hm Hacc. split.
  - intros (l & tail & Ht & Heq & a & b & -> & -> & c & d & -> & Hc & ->).
    exists c, tail. split; [exact Hc|]. split; [exact Ht|].
    rewrite Heq, !string_app_assoc. reflexivity.
  - intros (mid & tail & Hm & Ht & Heq).
    exists ("requirements" ++ mid ++ ".txt")%string, tail.
    split; [exact Ht|]. split.
    + rewrite Heq, !string_app_assoc. reflexivity.
    + exists "requirements"%string, (mid ++ ".txt")%string.
      split; [reflexivity|]. split; [reflexivity|].
      exists mid, ".txt"%string. auto.
Qed.

(** X18.  Python/pip is reported whenever the name of a collected file
    is, up to the case of the letters A to Z and one newline at its end,
    [requirements], then any characters but newlines, then [.txt]; or
    [setup.py]; or [pyproject.toml].  When the collected names are all
    ASCII, it is reported in no other case. *)
Theorem python_detected
        (directory : path) (cwd : node) (all_files : list path)
        (found : list detected) :
  collect_files directory cwd = Ok all_files ->
  detect_build_system directory cwd = Ok found ->
  ((exists file tail,
       In file all_files /\ In tail line_end /\
       ((exists mid, no_newline mid = true /\
                     lower_string (name file)
                     = ("requirements" ++ mid ++ ".txt" ++ tail)%string) \/
        lower_string (name file) = ("setup.py" ++ tail)%string \/
        lower_string (name file) = ("pyproject.toml" ++ tail)%string)) ->
   In "Python/pip" (map system found)) /\
  (Forall (fun file => ascii_only (name file) = true) all_files ->
   In "Python/pip" (map system found) ->
   exists file tail,
     In file all_files /\ In tail line_end /\
     ((exists mid, no_newline mid = true /\
                   lower_string (name file)
                   = ("requirements" ++ mid ++ ".txt" ++ tail)%string) \/
      lower_string (name file) = ("setup.py" ++ tail)%string \/
      lower_string (name file) = ("pyproject.toml" ++ tail)%string)).
Proof.
  intros Hc Hd.
  assert (Ht : In ("Python/pip",
                   [anchored [lit "requirements"; Star Dot; lit ".txt"];
                    anchored [lit "setup.py"];
                    anchored [lit "pyproject.toml"]])
                  build_systems)
    by (do 4 right; left; reflexivity).
  pose proof (system_detected_iff directory cwd all_files found "Python/pip"
                _ Ht Hc Hd) as Hsys.
  assert (Hlit : forall w nm, w <> ""%string ->
            (re_match (anchored [lit w]) nm = true <->
             exists tail, In tail line_end /\
                          lower_string nm = (lower_string w ++ tail)%string)).
  { intros w nm Hw.
    rewrite (match_accepts (lit w) _ nm (anchor_free_lit w Hw)
                           (accepts_lit w Hw)).
    split.
    - intros (l & tail & Htl & Heq & ->). eauto.
    - intros (tail & Htl & Heq). eauto. }
  split.
  - intros (file & tail & Hf & Htl & [(mid & Hm & Heq)|[Heq|Heq]]);
      apply Hsys.
    + eexists _, file. split; [left; reflexivity|]. split; [exact Hf|].
      apply requirements_name. eauto.
    + eexists _, file. split; [right; left; reflexivity|].
      split; [exact Hf|]. apply Hlit; [discriminate|]. eauto.
    + eexists _, file. split; [right; right; left; reflexivity|].
      split; [exact Hf|]. apply Hlit; [discriminate|]. eauto.
  - intros _ Hin. apply Hsys in Hin.
    destruct Hin as (p & file & [<-|[<-|[<-|[]]]] & Hf & Hm).
    + apply requirements_name in Hm.
      destruct Hm as (mid & tail & H1 & H2 & H3).
      exists file, tail. split; [exact Hf|]. split; [exact H2|]. left. eauto.
    + apply Hlit in Hm; [|discriminate]. destruct Hm as (tail & H2 & H3).
      exists file, tail. auto.
    + apply Hlit in Hm; [|discriminate]. destruct Hm as (tail & H2 & H3).
      exists file, tail. auto.
Qed.

Lemma python_detected_witness :
  In "Python/pip"
     (map system
          [{| system := "Python/pip";
              found_files := [["Requirements-dev.TXT"]] |}]) /\
  exists file tail,
    In file [["Requirements-dev.TXT"]] /\ In tail line_end /\
    ((exists mid, no_newline mid = true /\
                  lower_string (name file)
                  = ("requirements" ++ mid ++ ".txt" ++ tail)%string) \/
     lower_string (name file) = ("setup.py" ++ tail)%string \/
     lower_string (name file) = ("pyproject.toml" ++ tail)%string).
Proof.
  destruct (python_detected []
              (Dir true [("Requirements-dev.TXT", Examples.plain)])
              [["Requirements-dev.TXT"]]
              [{| system := "Python/pip";
                  found_files := [["Requirements-dev.TXT"]] |}]
              eq_refl eq_refl)
    as [Hif Honly].
  split.
  - apply Hif. exists ["Requirements-dev.TXT"], ""%string.
    split; [left; reflexivity|]. split; [left; reflexivity|].
    left. exists "-dev"%string. split; reflexivity.
  - apply Honly; [|left; reflexivity].
    constructor; [reflexivity | constructor].
Defined.

(** *** A manifest that cannot be opened *)

(** X19.  Only a manifest that does not parse is forgiven.  After a scan
    that succeeded, a [package.json] that is a file without read
    permission ends the run with [PermissionError]; and a [package.json]
    that is a directory ends it with [IsADirectoryError] whenever a system
    was found.  Both output modes behave alike. *)
Theorem unopenable_manifest_aborts
        (as_json : bool) (cwd : node) (found : list detected) :
  detect_build_system [] cwd = Ok found ->
  (forall c, resolve cwd ["package.json"] = Ok (File false c) ->
             main as_json cwd = Raise PermissionError) /\
  (forall l entries,
      resolve cwd ["package.json"] = Ok (Dir l entries) -> found <> [] ->
      main as_json cwd = Raise IsADirectoryError).
Proof.
  intros Hd. split.
  - intros c Hr.
    pose proof (manifest_is_detected cwd false c found Hr Hd) as Hne.
    rewrite (main_some_system as_json cwd found Hd Hne).
    rewrite detect_package_type_cases. cbn [app]. rewrite Hr. reflexivity.
  - intros l entries Hr Hne.
    rewrite (main_some_system as_json cwd found Hd Hne).
    rewrite detect_package_type_cases. cbn [app]. rewrite Hr. reflexivity.
Qed.

Lemma unopenable_manifest_aborts_witness :
  main false (Dir true [("package.json", File false Malformed)])
  = Raise PermissionError /\
  main true (Dir true [("package.json", Dir true []);
                       ("pom.xml", Examples.plain)])
  = Raise IsADirectoryError.
Proof.
  split.
  - exact (proj1 (unopenable_manifest_aborts false
                    (Dir true [("package.json", File false Malformed)])
                    [{| system := "npm";
                        found_files := [["package.json"]] |}]
                    eq_refl)
                 Malformed eq_refl).
  - refine (proj2 (unopenable_manifest_aborts true
                     (Dir true [("package.json", Dir true []);
                                ("pom.xml", Examples.plain)])
                     [{| system := "Maven"; found_files := [["pom.xml"]] |}]
                     eq_refl)
                  true [] eq_refl _).
    discriminate.
Defined.
